(** * ModelSelectUtil: provider / model selection for a notebook

    A shallow embedding of [python/model_select_util.py].  The class
    [ModelSelectUtil] keeps two dependent drop-down widgets, one for the
    LLM provider ("platform") and one for the model, and filters the
    providers by the presence of an API key in the process environment.

    Modelling choices:
    - [model_configs] is a Python [dict] that is iterated with [.items()]
      (insertion order) and read with [.get]; it is an association list.
    - [api_key_map] and [os.environ] are only read by key: [gmap].
    - a method that mutates [self] is a function from the object to the
      new object; [select_platform_widget] can raise ([configs[0]] on an
      empty list), so it returns a [result].
    - the environment is read at call time, so it is an argument of every
      function that reads it. *)

From stdpp Require Import base strings list gmap.

Open Scope string_scope.

(** ** Python values *)

(** [bool(s)] for a [str]: the empty string is falsy. *)
Definition truthy (s : string) : bool := negb (String.eqb s "").

(** [bool(x)] for an [Optional[str]]: [None] and [""] are falsy. *)
Definition truthy_opt (o : option string) : bool :=
  match o with
  | Some s => truthy s
  | None => false
  end.

Inductive exn : Type :=
  | IndexError.

Inductive result (A : Type) : Type :=
  | Ok (a : A)
  | Raise (e : exn).

Arguments Ok {A} a.
Arguments Raise {A} e.

(** [d.get(k)] on an insertion-ordered dict. *)
Fixpoint dict_get {V : Type} (d : list (string * V)) (k : string) : option V :=
  match d with
  | [] => None
  | (k', v) :: rest => if String.eqb k' k then Some v else dict_get rest k
  end.

(** ** Widgets *)

(** [widgets.Dropdown(options=..., value=..., description=..., disabled=...)] *)
Record Dropdown : Type := {
  options : list string;
  value : string;
  description : string;
  disabled : bool
}.

(** The two drop-downs an output area can show.  An output area refers to
    the widget object held in the corresponding field of the instance:
    every assignment to [platform_dropdown] / [model_dropdown] is followed,
    in the same call, by [clear_output] and [display] of that object. *)
Inductive widget_ref : Type :=
  | PlatformDropdown
  | ModelDropdown.

(** What a [widgets.Output] area holds after [clear_output(wait=True)]
    followed by one [print] or one [display]. *)
Inductive OutputItem : Type :=
  | Printed (text : string)
  | Displayed (w : widget_ref).

Definition Output : Type := list OutputItem.

(** The [change] dictionary an observer receives. *)
Record Change : Type := {
  change_type : string;
  change_name : string;
  change_new : string
}.

(** ** The instance *)

Record ModelSelectUtil : Type := {
  platform_dropdown : option Dropdown;
  model_dropdown : option Dropdown;
  selected_platform : option string;
  selected_model : option string;
  platform_output : Output;
  model_output : Output
}.

(** [__init__]: every attribute is [None], both output areas are empty. *)
Definition __init__ : ModelSelectUtil := {|
  platform_dropdown := None;
  model_dropdown := None;
  selected_platform := None;
  selected_model := None;
  platform_output := [];
  model_output := []
|}.

Definition no_api_keys_message : string :=
  "No API keys found for any configured platform. Please check your .env file.".

Section Methods.

(** The two class attributes. *)
Variable model_configs : list (string * list (string * string)).
Variable api_key_map : gmap string string.

(** [os.getenv(env_var)] reads [environ]. *)
Definition _check_api_key_exists
    (environ : gmap string string) (platform_key : string) : bool :=
  match api_key_map !! platform_key with
  | Some env_var =>
      if truthy env_var then truthy_opt (environ !! env_var) else false
  | None => false
  end.

(** The [for platform_name, configs in self.model_configs.items()] loop of
    [select_platform_widget]; [available_platforms] is the accumulator. *)
Fixpoint available_loop (environ : gmap string string)
    (items : list (string * list (string * string)))
    (available_platforms : list string) : result (list string) :=
  match items with
  | [] => Ok available_platforms
  | (platform_name, configs) :: rest =>
      match configs with
      | [] => Raise IndexError
      | (_, platform_key) :: _ =>
          if _check_api_key_exists environ platform_key
          then available_loop environ rest (available_platforms ++ [platform_name])
          else available_loop environ rest available_platforms
      end
  end.

Definition available_platforms (environ : gmap string string)
    : result (list string) :=
  available_loop environ model_configs [].

(** The returned object is the [platform_output] field of the new state. *)
Definition select_platform_widget (environ : gmap string string)
    (self : ModelSelectUtil) : result ModelSelectUtil :=
  match available_platforms environ with
  | Raise e => Raise e
  | Ok [] =>
      Ok {| platform_dropdown := platform_dropdown self;
            model_dropdown := model_dropdown self;
            selected_platform := selected_platform self;
            selected_model := selected_model self;
            platform_output := [Printed no_api_keys_message];
            model_output := model_output self |}
  | Ok ((first :: _) as available) =>
      Ok {| platform_dropdown :=
              Some {| options := available;
                      value := first;
                      description := "Platform:";
                      disabled := false |};
            model_dropdown := model_dropdown self;
            selected_platform := Some first;
            selected_model := selected_model self;
            platform_output := [Displayed PlatformDropdown];
            model_output := model_output self |}
  end.

(** [[model_name for model_name, _ in
      self.model_configs.get(platform, [])]] *)
Definition model_options (platform : string) : list string :=
  map fst (default [] (dict_get model_configs platform)).

(** The returned object is the [model_output] field of the new state. *)
Definition select_model_widget (self : ModelSelectUtil) : ModelSelectUtil :=
  match selected_platform self with
  | None => self
  | Some platform =>
      if negb (truthy platform) then self
      else
        match model_options platform with
        | [] =>
            {| platform_dropdown := platform_dropdown self;
               model_dropdown := model_dropdown self;
               selected_platform := selected_platform self;
               selected_model := selected_model self;
               platform_output := platform_output self;
               model_output :=
                 [Printed ("No models configured for " +:+ platform +:+ ".")] |}
        | (first :: _) as opts =>
            {| platform_dropdown := platform_dropdown self;
               model_dropdown :=
                 Some {| options := opts;
                         value := first;
                         description := "Model:";
                         disabled := false |};
               selected_platform := selected_platform self;
               selected_model := Some first;
               platform_output := platform_output self;
               model_output := [Displayed ModelDropdown] |}
        end
  end.

(** The observer registered on the platform drop-down. *)
Definition on_platform_change (change : Change) (self : ModelSelectUtil)
    : ModelSelectUtil :=
  if String.eqb (change_type change) "change"
     && String.eqb (change_name change) "value"
  then
    select_model_widget
      {| platform_dropdown := platform_dropdown self;
         model_dropdown := model_dropdown self;
         selected_platform := Some (change_new change);
         selected_model := selected_model self;
         platform_output := platform_output self;
         model_output := model_output self |}
  else self.

(** The observer registered on the model drop-down. *)
Definition on_model_change (change : Change) (self : ModelSelectUtil)
    : ModelSelectUtil :=
  if String.eqb (change_type change) "change"
     && String.eqb (change_name change) "value"
  then
    {| platform_dropdown := platform_dropdown self;
       model_dropdown := model_dropdown self;
       selected_platform := selected_platform self;
       selected_model := Some (change_new change);
       platform_output := platform_output self;
       model_output := model_output self |}
  else self.

Definition get_selected_platform (self : ModelSelectUtil) : option string :=
  selected_platform self.

Definition get_selected_model (self : ModelSelectUtil) : option string :=
  selected_model self.

(** The [for model_name, platform_key in ...] search of [get_model_params]. *)
Fixpoint find_model_params (configs : list (string * string))
    (selected : string) : option string :=
  match configs with
  | [] => None
  | (model_name, platform_key) :: rest =>
      if String.eqb model_name selected
      then Some (platform_key +:+ ":" +:+ model_name)
      else find_model_params rest selected
  end.

Definition get_model_params (self : ModelSelectUtil) : option string :=
  if negb (truthy_opt (selected_platform self))
     || negb (truthy_opt (selected_model self))
  then None
  else
    match selected_platform self, selected_model self with
    | Some platform, Some model =>
        find_model_params (default [] (dict_get model_configs platform)) model
    | _, _ => None
    end.

(** [display_widgets]: the [Output] object returned by
    [select_platform_widget] is always truthy, so [select_model_widget]
    runs whenever the first call returns.  The box that shows both
    output areas goes to the notebook cell, not to the instance. *)
Definition display_widgets (environ : gmap string string)
    (self : ModelSelectUtil) : result ModelSelectUtil :=
  match select_platform_widget environ self with
  | Raise e => Raise e
  | Ok self' => Ok (select_model_widget self')
  end.

End Methods.

(** ** Events on an instance

    The host notebook drives an instance through method calls and through
    the two observers.  A drop-down only takes a value that is one of its
    options; when the value really changes, the toolkit stores the new
    value in the widget and then notifies the observer with a [change] of
    type ["change"] and name ["value"].  The events below are the method
    calls and the value changes on the drop-downs the instance currently
    holds; value changes on drop-downs that a later call replaced are
    events of [notebook_step] further down. *)

Inductive event : Type :=
  | SelectPlatformWidget (environ : gmap string string)
  | SelectModelWidget
  | DisplayWidgets (environ : gmap string string)
  | PlatformChange (new : string)
  | ModelChange (new : string).

Definition value_change (new : string) : Change :=
  {| change_type := "change"; change_name := "value"; change_new := new |}.

Definition set_value (d : Dropdown) (new : string) : Dropdown :=
  {| options := options d;
     value := new;
     description := description d;
     disabled := disabled d |}.

Definition is_option (d : Dropdown) (new : string) : bool :=
  existsb (String.eqb new) (options d).

(** [new] is an option of [d] other than its current value. *)
Definition changes_value (d : Dropdown) (new : string) : bool :=
  is_option d new && negb (String.eqb new (value d)).

Section Events.

Variable model_configs : list (string * list (string * string)).
Variable api_key_map : gmap string string.

(** One event; [None] when the event cannot take place (no such
    drop-down, a value that is not an option or not a change) or the
    method raises, in which case the instance is left as it was. *)
Definition step (ev : event) (self : ModelSelectUtil) : option ModelSelectUtil :=
  match ev with
  | SelectPlatformWidget environ =>
      match select_platform_widget model_configs api_key_map environ self with
      | Ok self' => Some self'
      | Raise _ => None
      end
  | SelectModelWidget => Some (select_model_widget model_configs self)
  | DisplayWidgets environ =>
      match display_widgets model_configs api_key_map environ self with
      | Ok self' => Some self'
      | Raise _ => None
      end
  | PlatformChange new =>
      match platform_dropdown self with
      | Some d =>
          if changes_value d new then
            Some (on_platform_change model_configs (value_change new)
                    {| platform_dropdown := Some (set_value d new);
                       model_dropdown := model_dropdown self;
                       selected_platform := selected_platform self;
                       selected_model := selected_model self;
                       platform_output := platform_output self;
                       model_output := model_output self |})
          else None
      | None => None
      end
  | ModelChange new =>
      match model_dropdown self with
      | Some d =>
          if changes_value d new then
            Some (on_model_change (value_change new)
                    {| platform_dropdown := platform_dropdown self;
                       model_dropdown := Some (set_value d new);
                       selected_platform := selected_platform self;
                       selected_model := selected_model self;
                       platform_output := platform_output self;
                       model_output := model_output self |})
          else None
      | None => None
      end
  end.

Fixpoint run (evs : list event) (self : ModelSelectUtil) : option ModelSelectUtil :=
  match evs with
  | [] => Some self
  | ev :: rest =>
      match step ev self with
      | Some self' => run rest self'
      | None => None
      end
  end.

(** A state of an instance that some sequence of events produces from a
    fresh instance. *)
Definition reachable (self : ModelSelectUtil) : Prop :=
  exists evs, run evs __init__ = Some self.

(** "The selected model belongs to the selected provider's list." *)
Definition model_belongs (self : ModelSelectUtil) : Prop :=
  forall platform model,
    selected_platform self = Some platform ->
    selected_model self = Some model ->
    In model (model_options model_configs platform).

End Events.

(** ** The class attributes of the source *)

Definition model_configs : list (string * list (string * string)) :=
  [ ("OpenAI",
      [ ("gpt-4o", "openai");
        ("gpt-3.5-turbo", "openai");
        ("gpt-5-nano", "openai") ]);
    ("Deepseek",
      [ ("deepseek-chat", "deepseek");
        ("deepseek-coder", "deepseek") ]);
    ("Gemini",
      [ ("gemini-pro", "gemini");
        ("gemini-flash", "gemini") ]);
    ("Anthropic",
      [ ("claude-3-sonnet-20240229", "anthropic");
        ("claude-2.1", "anthropic") ]) ].

Definition api_key_map : gmap string string :=
  <["openai" := "OPENAI_API_KEY"]>
  (<["deepseek" := "DEEPSEEK_API_KEY"]>
  (<["gemini" := "GEMINI_API_KEY"]>
  (<["anthropic" := "ANTHROPIC_API_KEY"]> ∅))).

(** ** Vocabulary of the statements *)

(** [configs[0][1]], when [configs] has a first entry. *)
Definition first_platform_key (configs : list (string * string)) : option string :=
  match configs with
  | [] => None
  | (_, platform_key) :: _ => Some platform_key
  end.

(** The environment variable mapped from [platform_key] is set to a
    non-empty value. *)
Definition key_usable (api_key_map environ : gmap string string)
    (platform_key : string) : Prop :=
  exists env_var v,
    api_key_map !! platform_key = Some env_var /\
    environ !! env_var = Some v /\ v <> "".

(** Events whose last action is the repopulation of the model drop-down. *)
Definition cascades (ev : event) : bool :=
  match ev with
  | SelectModelWidget | DisplayWidgets _ | PlatformChange _ => true
  | SelectPlatformWidget _ | ModelChange _ => false
  end.

(** Whether the model drop-down is known to follow the selected platform
    after [ev], given whether it did before: a bare
    [select_platform_widget] call may move the selected platform on its
    own, a model change keeps things as they are, the other events end
    with a repopulation. *)
Definition after_event (b : bool) (ev : event) : bool :=
  match ev with
  | SelectPlatformWidget _ => false
  | ModelChange _ => b
  | SelectModelWidget | DisplayWidgets _ | PlatformChange _ => true
  end.

(** A sequence of events in which the most recent bare
    [select_platform_widget] call, if there is one, has been followed by a
    repopulation of the model drop-down. *)
Fixpoint synced_from (b : bool) (evs : list event) : bool :=
  match evs with
  | [] => b
  | ev :: rest => synced_from (after_event b ev) rest
  end.

Definition synced (evs : list event) : bool := synced_from true evs.

(** A platform name that [select_model_widget] can repopulate from. *)
Definition configured (model_configs : list (string * list (string * string)))
    (platform : string) : Prop :=
  platform <> "" /\ model_options model_configs platform <> [].

(** What holds of the platform side of an instance after any events. *)
Definition platform_side_ok (model_configs : list (string * list (string * string)))
    (self : ModelSelectUtil) : Prop :=
  (forall d, platform_dropdown self = Some d ->
             forall x, In x (options d) -> configured model_configs x) /\
  (forall platform, selected_platform self = Some platform ->
                    configured model_configs platform) /\
  (selected_platform self = None ->
   model_dropdown self = None /\ selected_model self = None).

(** The model drop-down offers the models of the selected platform and
    the selected model is one of its options. *)
Definition model_side_ok (model_configs : list (string * list (string * string)))
    (self : ModelSelectUtil) : Prop :=
  (forall d, model_dropdown self = Some d ->
             exists platform,
               selected_platform self = Some platform /\
               options d = model_options model_configs platform) /\
  (forall model, selected_model self = Some model ->
                 exists d, model_dropdown self = Some d /\ In model (options d)).

(** Every provider has at least one model. *)
Definition all_configured (items : list (string * list (string * string))) : Prop :=
  Forall (fun pc => snd pc <> []) items.

(** An environment with keys for the first two providers; a sequence of
    events in which the user moves to the second provider; the same
    sequence followed by a bare [select_platform_widget] call. *)
Definition two_keys_environ : gmap string string :=
  <["OPENAI_API_KEY" := "sk-1"]> (<["DEEPSEEK_API_KEY" := "sk-2"]> ∅).

Definition moved_trace : list event :=
  [ SelectPlatformWidget two_keys_environ;
    SelectModelWidget;
    PlatformChange "Deepseek" ].

Definition moved_state : ModelSelectUtil := {|
  platform_dropdown :=
    Some {| options := ["OpenAI"; "Deepseek"]; value := "Deepseek";
            description := "Platform:"; disabled := false |};
  model_dropdown :=
    Some {| options := ["deepseek-chat"; "deepseek-coder"];
            value := "deepseek-chat";
            description := "Model:"; disabled := false |};
  selected_platform := Some "Deepseek";
  selected_model := Some "deepseek-chat";
  platform_output := [Displayed PlatformDropdown];
  model_output := [Displayed ModelDropdown]
|}.

Definition reselect_trace : list event :=
  moved_trace ++ [SelectPlatformWidget two_keys_environ].

Definition reselect_state : ModelSelectUtil := {|
  platform_dropdown :=
    Some {| options := ["OpenAI"; "Deepseek"]; value := "OpenAI";
            description := "Platform:"; disabled := false |};
  model_dropdown :=
    Some {| options := ["deepseek-chat"; "deepseek-coder"];
            value := "deepseek-chat";
            description := "Model:"; disabled := false |};
  selected_platform := Some "OpenAI";
  selected_model := Some "deepseek-chat";
  platform_output := [Displayed PlatformDropdown];
  model_output := [Displayed ModelDropdown]
|}.

(** The test the loop of [select_platform_widget] applies to one item of
    [model_configs], for an item that has a first model. *)
Definition provider_available (api_key_map environ : gmap string string)
    (item : string * list (string * string)) : bool :=
  match snd item with
  | [] => false
  | (_, platform_key) :: _ => _check_api_key_exists api_key_map environ platform_key
  end.

(** Every variable that [environ1] sets to a non-empty value is set to a
    non-empty value in [environ2]. *)
Definition keys_kept (environ1 environ2 : gmap string string) : Prop :=
  forall env_var v,
    environ1 !! env_var = Some v -> v <> "" ->
    exists v', environ2 !! env_var = Some v' /\ v' <> "".


(** A provider table in which one provider is paired with a key that
    [api_key_map] does not know, and an environment that sets the
    variable one would expect for it. *)
Definition configs_with_unmapped_key : list (string * list (string * string)) :=
  [ ("OpenAI", [ ("gpt-4o", "openai") ]);
    ("Mistral", [ ("mistral-large", "mistral") ]) ].

Definition mistral_environ : gmap string string :=
  <["MISTRAL_API_KEY" := "m-1"]> (<["OPENAI_API_KEY" := "sk-1"]> ∅).

(** ** Drop-downs that a later call replaced

    [select_platform_widget] and [select_model_widget] bind a new
    [Dropdown] object to the attribute and register an observer on it;
    the object that the attribute held before is not closed and keeps
    its own observer, a closure over the same instance.  A notebook
    therefore consists of the instance and of the drop-downs it has
    replaced, and a value change on any of them reaches the instance. *)

Record Notebook : Type := {
  instance : ModelSelectUtil;
  replaced_platform_dropdowns : list Dropdown;
  replaced_model_dropdowns : list Dropdown
}.

Definition fresh_notebook : Notebook := {|
  instance := __init__;
  replaced_platform_dropdowns := [];
  replaced_model_dropdowns := []
|}.

(** The object an attribute held, if any, joins the replaced ones. *)
Definition retire (old : option Dropdown) (replaced : list Dropdown) : list Dropdown :=
  match old with
  | Some d => d :: replaced
  | None => replaced
  end.

Inductive notebook_event : Type :=
  | OnHeld (ev : event)
  | OnReplacedPlatform (i : nat) (new : string)
  | OnReplacedModel (i : nat) (new : string).

Section NotebookEvents.

Variable model_configs : list (string * list (string * string)).
Variable api_key_map : gmap string string.

(** [select_model_widget] reaches [widgets.Dropdown(...)] when the
    selected platform is truthy and has models. *)
Definition builds_model_dropdown (platform : option string) : bool :=
  match platform with
  | Some p =>
      truthy p &&
      match model_options model_configs p with
      | [] => false
      | _ :: _ => true
      end
  | None => false
  end.

(** [select_platform_widget] reaches [widgets.Dropdown(...)] when the
    list of available providers is not empty. *)
Definition builds_platform_dropdown (environ : gmap string string) : bool :=
  match available_platforms model_configs api_key_map environ with
  | Ok (_ :: _) => true
  | Ok [] | Raise _ => false
  end.

Definition rebuilds_platform (ev : event) : bool :=
  match ev with
  | SelectPlatformWidget environ | DisplayWidgets environ =>
      builds_platform_dropdown environ
  | SelectModelWidget | PlatformChange _ | ModelChange _ => false
  end.

Definition rebuilds_model (ev : event) (self : ModelSelectUtil) : bool :=
  match ev with
  | SelectModelWidget => builds_model_dropdown (selected_platform self)
  | DisplayWidgets environ =>
      match select_platform_widget model_configs api_key_map environ self with
      | Ok self' => builds_model_dropdown (selected_platform self')
      | Raise _ => false
      end
  | PlatformChange new => builds_model_dropdown (Some new)
  | SelectPlatformWidget _ | ModelChange _ => false
  end.

(** One event of the notebook: a method call or a change on a held
    drop-down ([OnHeld]), or a value change on the [i]-th replaced
    platform or model drop-down, which runs that drop-down's observer. *)
Definition notebook_step (nev : notebook_event) (w : Notebook) : option Notebook :=
  match nev with
  | OnHeld ev =>
      match step model_configs api_key_map ev (instance w) with
      | Some self' =>
          Some {| instance := self';
                  replaced_platform_dropdowns :=
                    if rebuilds_platform ev
                    then retire (platform_dropdown (instance w))
                                (replaced_platform_dropdowns w)
                    else replaced_platform_dropdowns w;
                  replaced_model_dropdowns :=
                    if rebuilds_model ev (instance w)
                    then retire (model_dropdown (instance w))
                                (replaced_model_dropdowns w)
                    else replaced_model_dropdowns w |}
      | None => None
      end
  | OnReplacedPlatform i new =>
      match replaced_platform_dropdowns w !! i with
      | Some d =>
          if changes_value d new then
            Some {| instance :=
                      on_platform_change model_configs (value_change new) (instance w);
                    replaced_platform_dropdowns :=
                      <[i := set_value d new]> (replaced_platform_dropdowns w);
                    replaced_model_dropdowns :=
                      if builds_model_dropdown (Some new)
                      then retire (model_dropdown (instance w))
                                  (replaced_model_dropdowns w)
                      else replaced_model_dropdowns w |}
          else None
      | None => None
      end
  | OnReplacedModel i new =>
      match replaced_model_dropdowns w !! i with
      | Some d =>
          if changes_value d new then
            Some {| instance := on_model_change (value_change new) (instance w);
                    replaced_platform_dropdowns := replaced_platform_dropdowns w;
                    replaced_model_dropdowns :=
                      <[i := set_value d new]> (replaced_model_dropdowns w) |}
          else None
      | None => None
      end
  end.

Fixpoint notebook_run (nevs : list notebook_event) (w : Notebook) : option Notebook :=
  match nevs with
  | [] => Some w
  | nev :: rest =>
      match notebook_step nev w with
      | Some w' => notebook_run rest w'
      | None => None
      end
  end.

End NotebookEvents.

(** Whether the model side is known to follow the selected platform after
    a notebook event: a platform change on a replaced drop-down runs
    [on_platform_change], which repopulates; a model change on a
    replaced model drop-down selects a model of the list it offers. *)
Definition after_notebook_event (b : bool) (nev : notebook_event) : bool :=
  match nev with
  | OnHeld ev => after_event b ev
  | OnReplacedPlatform _ _ => true
  | OnReplacedModel _ _ => false
  end.

(** A sequence of notebook events in which the most recent bare
    [select_platform_widget] call or model change on a replaced
    drop-down, if there is one, has been followed by a repopulation of
    the model drop-down. *)
Fixpoint repopulated_from (b : bool) (nevs : list notebook_event) : bool :=
  match nevs with
  | [] => b
  | nev :: rest => repopulated_from (after_notebook_event b nev) rest
  end.

Definition repopulated (nevs : list notebook_event) : bool :=
  repopulated_from true nevs.

(** What holds of the replaced drop-downs after any notebook events. *)
Definition replaced_ok (model_configs : list (string * list (string * string)))
    (w : Notebook) : Prop :=
  (forall d, In d (replaced_platform_dropdowns w) ->
             forall x, In x (options d) -> configured model_configs x) /\
  (selected_platform (instance w) = None -> replaced_model_dropdowns w = []).

(** A selected platform comes with a selected model. *)
Definition model_selected (self : ModelSelectUtil) : Prop :=
  selected_platform self <> None -> selected_model self <> None.

(** A platform drop-down the instance built: its value is one of its
    options and its options are providers of the table that have
    models. *)
Definition platform_dropdown_ok (model_configs : list (string * list (string * string)))
    (d : Dropdown) : Prop :=
  In (value d) (options d) /\
  forall x, In x (options d) ->
            In x (map fst model_configs) /\ model_options model_configs x <> [].

(** A model drop-down the instance built: its value is one of its options
    and it offers the model names of one provider of the table. *)
Definition model_dropdown_ok (model_configs : list (string * list (string * string)))
    (d : Dropdown) : Prop :=
  In (value d) (options d) /\
  exists platform,
    In platform (map fst model_configs) /\
    options d = model_options model_configs platform.

(** The held drop-downs and the two selections. *)
Definition held_ok (model_configs : list (string * list (string * string)))
    (self : ModelSelectUtil) : Prop :=
  (forall d, platform_dropdown self = Some d -> platform_dropdown_ok model_configs d) /\
  (forall platform, selected_platform self = Some platform ->
                    In platform (map fst model_configs) /\
                    model_options model_configs platform <> []) /\
  (forall d, model_dropdown self = Some d -> model_dropdown_ok model_configs d) /\
  (forall model, selected_model self = Some model ->
                 exists platform,
                   In platform (map fst model_configs) /\
                   In model (model_options model_configs platform)).

(** What holds of every drop-down the instance has built, and of the two
    selections, after any notebook events. *)
Definition built_ok (model_configs : list (string * list (string * string)))
    (w : Notebook) : Prop :=
  held_ok model_configs (instance w) /\
  (forall d, In d (replaced_platform_dropdowns w) ->
             platform_dropdown_ok model_configs d) /\
  (forall d, In d (replaced_model_dropdowns w) ->
             model_dropdown_ok model_configs d).

(** The events that are calls of a method. *)
Definition method_call (ev : event) : bool :=
  match ev with
  | SelectPlatformWidget _ | SelectModelWidget | DisplayWidgets _ => true
  | PlatformChange _ | ModelChange _ => false
  end.

(** A sequence of notebook events: the user moves to the
    second provider, then a value change arrives on the model drop-down
    that the move replaced. *)
Definition replaced_model_trace : list notebook_event :=
  map OnHeld moved_trace ++ [OnReplacedModel 0 "gpt-5-nano"].

(** ** Facts about Python values *)

Lemma truthy_true (s : string) : truthy s = true <-> s <> "".
Proof.
  unfold truthy. destruct (String.eqb_spec s ""); simpl; split; congruence.
Qed.

Lemma truthy_false (s : string) : truthy s = false <-> s = "".
Proof.
  unfold truthy. destruct (String.eqb_spec s ""); simpl; split; congruence.
Qed.

Lemma truthy_opt_true (o : option string) :
  truthy_opt o = true <-> exists s, o = Some s /\ s <> "".
Proof.
  destruct o as [s|]; simpl.
  - rewrite truthy_true. split.
    + intros H. exists s. auto.
    + intros (s' & [= <-] & H). exact H.
  - split; [discriminate | intros (s & H & _); discriminate].
Qed.

Lemma truthy_opt_false (o : option string) :
  truthy_opt o = false <-> o = None \/ o = Some "".
Proof.
  destruct o as [s|]; simpl.
  - rewrite truthy_false. split.
    + intros ->. auto.
    + intros [H|[= ->]]; [discriminate | reflexivity].
  - split; auto.
Qed.

Lemma dict_get_In {V : Type} (d : list (string * V)) (k : string) (v : V) :
  dict_get d k = Some v -> In (k, v) d.
Proof.
  induction d as [|[k' v'] d IH]; simpl; [discriminate|].
  destruct (String.eqb_spec k' k) as [->|Hne].
  - intros [= ->]. left; reflexivity.
  - intros H. right. apply IH, H.
Qed.

Lemma dict_get_None {V : Type} (d : list (string * V)) (k : string) :
  dict_get d k = None <-> ~ In k (map fst d).
Proof.
  induction d as [|[k' v'] d IH]; simpl.
  - split; [intros _ [] | reflexivity].
  - destruct (String.eqb_spec k' k) as [->|Hne].
    + split; [discriminate | intros H; exfalso; apply H; left; reflexivity].
    + rewrite IH. split.
      * intros H [Heq|Hin]; [congruence | exact (H Hin)].
      * intros H Hin. apply H. right. exact Hin.
Qed.

(** ** Facts about widgets and observers *)

Lemma is_option_In (d : Dropdown) (new : string) :
  is_option d new = true <-> In new (options d).
Proof.
  unfold is_option. rewrite existsb_exists. split.
  - intros (x & Hx & Heq). apply String.eqb_eq in Heq. subst. exact Hx.
  - intros H. exists new. split; [exact H | apply String.eqb_refl].
Qed.

Lemma changes_value_In (d : Dropdown) (new : string) :
  changes_value d new = true -> In new (options d).
Proof.
  unfold changes_value. intros H. apply andb_prop in H as [H _].
  apply is_option_In, H.
Qed.

(** Notifications about other traits of a drop-down do nothing. *)
Lemma on_platform_change_other_trait
    (configs : list (string * list (string * string)))
    (change : Change) (self : ModelSelectUtil) :
  change_name change <> "value" ->
  on_platform_change configs change self = self.
Proof.
  intros H. unfold on_platform_change.
  apply String.eqb_neq in H. rewrite H, andb_false_r. reflexivity.
Qed.

Lemma on_model_change_other_trait (change : Change) (self : ModelSelectUtil) :
  change_name change <> "value" ->
  on_model_change change self = self.
Proof.
  intros H. unfold on_model_change.
  apply String.eqb_neq in H. rewrite H, andb_false_r. reflexivity.
Qed.

(** ** Availability of providers *)

Section Availability.

Variable key_map : gmap string string.
Variable environ : gmap string string.

Lemma check_api_key_exists_true (platform_key : string) :
  _check_api_key_exists key_map environ platform_key = true <->
  exists env_var v,
    key_map !! platform_key = Some env_var /\ env_var <> "" /\
    environ !! env_var = Some v /\ v <> "".
Proof.
  unfold _check_api_key_exists.
  destruct (key_map !! platform_key) as [env_var|] eqn:Hk.
  - destruct (truthy env_var) eqn:Ht.
    + apply truthy_true in Ht. rewrite truthy_opt_true. split.
      * intros (v & Hv & Hne). exists env_var, v. auto.
      * intros (e & v & [= <-] & _ & Hv & Hne). exists v. auto.
    + apply truthy_false in Ht. split; [discriminate|].
      intros (e & v & [= <-] & Hne & _). congruence.
  - split; [discriminate|]. intros (e & v & H & _). discriminate.
Qed.

Lemma available_loop_configured items acc l :
  available_loop key_map environ items acc = Ok l -> all_configured items.
Proof.
  revert acc. induction items as [|[name configs] items IH]; intros acc H.
  - constructor.
  - simpl in H. destruct configs as [|[m key] configs]; [discriminate|].
    constructor; [simpl; congruence|].
    destruct (_check_api_key_exists key_map environ key); eapply IH, H.
Qed.

Lemma available_loop_total items acc :
  all_configured items ->
  exists l, available_loop key_map environ items acc = Ok l.
Proof.
  intros Hall. revert acc.
  induction Hall as [|[name configs] items Hne _ IH]; intros acc; simpl.
  - eauto.
  - destruct configs as [|[m key] configs]; [simpl in Hne; congruence|].
    destruct (_check_api_key_exists key_map environ key); apply IH.
Qed.

Lemma available_loop_In items acc l :
  available_loop key_map environ items acc = Ok l ->
  forall name,
    In name l <->
    In name acc \/
    exists configs key,
      In (name, configs) items /\
      first_platform_key configs = Some key /\
      _check_api_key_exists key_map environ key = true.
Proof.
  revert acc. induction items as [|[pname configs] items IH]; intros acc H name.
  - simpl in H. injection H as <-. split; [auto|].
    intros [Hin|(c & k & [] & _)]. exact Hin.
  - simpl in H. destruct configs as [|[m key] configs]; [discriminate|].
    destruct (_check_api_key_exists key_map environ key) eqn:Hchk;
      rewrite (IH _ H name); clear IH H.
    + rewrite in_app_iff. simpl. split.
      * intros [[Hin|[<-|[]]]|(c & k & Hin & Hk & Hc)]; [auto| |].
        -- right. exists ((m, key) :: configs), key. simpl. auto.
        -- right. exists c, k. simpl. auto.
      * intros [Hin|(c & k & [Heq|Hin] & Hk & Hc)]; [auto| |].
        -- injection Heq as <- <-. auto.
        -- right. exists c, k. auto.
    + split.
      * intros [Hin|(c & k & Hin & Hk & Hc)]; [auto|].
        right. exists c, k. simpl. auto.
      * intros [Hin|(c & k & [Heq|Hin] & Hk & Hc)]; [auto| |].
        -- injection Heq as <- <-. simpl in Hk. congruence.
        -- right. exists c, k. auto.
Qed.

(** The loop only looks at the provider names and at [configs[0][1]]. *)
Lemma available_loop_first_key items1 items2 acc :
  Forall2 (fun pc1 pc2 =>
             fst pc1 = fst pc2 /\
             first_platform_key (snd pc1) = first_platform_key (snd pc2))
          items1 items2 ->
  available_loop key_map environ items1 acc =
  available_loop key_map environ items2 acc.
Proof.
  intros H. revert acc.
  induction H as [|[n1 c1] [n2 c2] items1 items2 [Hn Hk] _ IH]; intros acc.
  - reflexivity.
  - simpl in Hn, Hk. subst n2. simpl.
    destruct c1 as [|[m1 k1] c1], c2 as [|[m2 k2] c2];
      simpl in Hk; try discriminate; [reflexivity|].
    injection Hk as <-.
    destruct (_check_api_key_exists key_map environ k1); apply IH.
Qed.

End Availability.

(** ** The tables of the source *)

Lemma model_configs_configured : all_configured model_configs.
Proof.
  unfold all_configured, model_configs. repeat constructor; simpl; discriminate.
Qed.

Lemma model_configs_first_key name configs model key :
  In (name, configs) model_configs ->
  In (model, key) configs ->
  first_platform_key configs = Some key.
Proof.
  unfold model_configs. simpl. intros Hp Hm.
  repeat match goal with
         | H : _ \/ _ |- _ => destruct H as [H|H]
         | H : False |- _ => destruct H
         | H : (_, _) = (_, _) |- _ => injection H as <- <-
         end;
    simpl in Hm;
    repeat match goal with
           | H : _ \/ _ |- _ => destruct H as [H|H]
           | H : False |- _ => destruct H
           | H : (_, _) = (_, _) |- _ => injection H as <- <-
           end;
    reflexivity.
Qed.

Lemma model_configs_functional name configs1 configs2 :
  In (name, configs1) model_configs ->
  In (name, configs2) model_configs ->
  configs1 = configs2.
Proof.
  unfold model_configs. simpl. intros H1 H2.
  repeat match goal with
         | H : _ \/ _ |- _ => destruct H as [H|H]
         | H : False |- _ => destruct H
         end;
    congruence.
Qed.

Lemma api_key_map_variables platform_key env_var :
  api_key_map !! platform_key = Some env_var -> env_var <> "".
Proof.
  unfold api_key_map. rewrite !lookup_insert_Some, lookup_empty.
  intros H.
  repeat match goal with
         | H : _ \/ _ |- _ => destruct H as [H|H]
         | H : _ /\ _ |- _ => destruct H
         end;
    subst; discriminate.
Qed.

Lemma check_api_key_exists_usable environ platform_key :
  _check_api_key_exists api_key_map environ platform_key = true <->
  key_usable api_key_map environ platform_key.
Proof.
  rewrite check_api_key_exists_true. unfold key_usable. split.
  - intros (e & v & Hk & _ & Hv & Hne). eauto.
  - intros (e & v & Hk & Hv & Hne). exists e, v.
    split; [exact Hk|]. split; [eapply api_key_map_variables, Hk | auto].
Qed.

(** ** The API-key check *)

(** Claim C7.  [_check_api_key_exists] is a function of the environment it
    is called in and of nothing else: it answers [True] exactly when the
    variable mapped from the key is set to a non-empty value; it gives
    the same answer in two environments that agree on that variable, and
    it can give different answers in two environments that differ. *)
Theorem check_api_key_exists_reads_environment :
  (forall environ platform_key,
      _check_api_key_exists api_key_map environ platform_key = true <->
      key_usable api_key_map environ platform_key) /\
  (forall environ1 environ2 platform_key,
      (forall env_var, api_key_map !! platform_key = Some env_var ->
                       environ1 !! env_var = environ2 !! env_var) ->
      _check_api_key_exists api_key_map environ1 platform_key =
      _check_api_key_exists api_key_map environ2 platform_key) /\
  (exists environ1 environ2 platform_key,
      _check_api_key_exists api_key_map environ1 platform_key = true /\
      _check_api_key_exists api_key_map environ2 platform_key = false).
Proof.
  split; [exact check_api_key_exists_usable|]. split.
  - intros environ1 environ2 platform_key Hagree.
    unfold _check_api_key_exists.
    destruct (api_key_map !! platform_key) as [env_var|]; [|reflexivity].
    rewrite (Hagree env_var eq_refl). reflexivity.
  - exists (<["OPENAI_API_KEY" := "sk-1"]> ∅), ∅, "openai".
    split; reflexivity.
Qed.

Lemma check_api_key_exists_reads_environment_witness :
  _check_api_key_exists api_key_map
    (<["GEMINI_API_KEY" := "g-1"]> (<["OPENAI_API_KEY" := ""]> ∅)) "gemini" =
  _check_api_key_exists api_key_map
    (<["GEMINI_API_KEY" := "g-1"]> ∅) "gemini".
Proof.
  apply (proj1 (proj2 check_api_key_exists_reads_environment)).
  intros env_var Hk. vm_compute in Hk. injection Hk as <-. reflexivity.
Defined.

(** ** The list of available providers *)

Lemma available_platforms_total (environ : gmap string string) :
  exists available,
    available_platforms model_configs api_key_map environ = Ok available.
Proof.
  apply available_loop_total, model_configs_configured.
Qed.

Lemma available_platforms_names environ available name :
  available_platforms model_configs api_key_map environ = Ok available ->
  In name available -> In name (map fst model_configs).
Proof.
  intros Hl H.
  apply (available_loop_In _ _ _ _ _ Hl) in H as [[]|(c & k & Hc & _)].
  apply (in_map fst) in Hc. exact Hc.
Qed.

Lemma available_platforms_usable environ available name configs model platform_key :
  available_platforms model_configs api_key_map environ = Ok available ->
  In (name, configs) model_configs ->
  In (model, platform_key) configs ->
  (In name available <-> key_usable api_key_map environ platform_key).
Proof.
  intros Hl Hp Hm.
  pose proof (model_configs_first_key _ _ _ _ Hp Hm) as Hfirst.
  rewrite <- check_api_key_exists_usable, (available_loop_In _ _ _ _ _ Hl name).
  split.
  - intros [[]|(c & k & Hc & Hk & Hchk)].
    rewrite (model_configs_functional _ _ _ Hc Hp) in Hk. congruence.
  - intros Hchk. right. exists configs, platform_key. auto.
Qed.

(** Claim C2.  [select_platform_widget] computes its list of available
    providers without raising, the list holds provider names only, and a
    provider of [model_configs] is in it exactly when the environment
    variable mapped from the provider's key is set and non-empty. *)
Theorem available_platforms_iff_key_usable (environ : gmap string string) :
  exists available,
    available_platforms model_configs api_key_map environ = Ok available /\
    (forall name, In name available -> In name (map fst model_configs)) /\
    (forall name configs model platform_key,
        In (name, configs) model_configs ->
        In (model, platform_key) configs ->
        (In name available <-> key_usable api_key_map environ platform_key)).
Proof.
  destruct (available_platforms_total environ) as [available Hl].
  exists available. split; [exact Hl|]. split.
  - intros name. apply (available_platforms_names _ _ _ Hl).
  - intros name configs model platform_key.
    apply (available_platforms_usable _ _ _ _ _ _ Hl).
Qed.

Lemma available_platforms_iff_key_usable_witness :
  exists available,
    available_platforms model_configs api_key_map
      (<["DEEPSEEK_API_KEY" := "sk-2"]> (<["OPENAI_API_KEY" := ""]> ∅))
    = Ok available /\
    In "Deepseek" available /\ ~ In "OpenAI" available.
Proof.
  destruct (available_platforms_iff_key_usable
              (<["DEEPSEEK_API_KEY" := "sk-2"]> (<["OPENAI_API_KEY" := ""]> ∅)))
    as (available & Hl & _ & Hiff).
  exists available. split; [exact Hl|]. split.
  - apply (Hiff "Deepseek"
             [("deepseek-chat", "deepseek"); ("deepseek-coder", "deepseek")]
             "deepseek-coder" "deepseek").
    + simpl. auto.
    + simpl. auto.
    + exists "DEEPSEEK_API_KEY", "sk-2". repeat split; discriminate.
  - intros Hin.
    apply (Hiff "OpenAI"
             [("gpt-4o", "openai"); ("gpt-3.5-turbo", "openai");
              ("gpt-5-nano", "openai")]
             "gpt-4o" "openai") in Hin; [|simpl; auto..].
    destruct Hin as (env_var & v & Hk & Hv & Hne).
    vm_compute in Hk. injection Hk as <-.
    vm_compute in Hv. injection Hv as <-. apply Hne. reflexivity.
Defined.

(** Claim C6.  When the list of available providers is not empty,
    [select_platform_widget] returns, the platform drop-down it creates
    offers that list with its first entry as value, and
    [selected_platform] is that first entry. *)
Theorem select_platform_widget_default
    (configs : list (string * list (string * string)))
    (key_map environ : gmap string string)
    (self : ModelSelectUtil) (first : string) (others : list string) :
  available_platforms configs key_map environ = Ok (first :: others) ->
  exists self',
    select_platform_widget configs key_map environ self = Ok self' /\
    platform_dropdown self' =
      Some {| options := first :: others; value := first;
              description := "Platform:"; disabled := false |} /\
    selected_platform self' = Some first /\
    platform_output self' = [Displayed PlatformDropdown].
Proof.
  intros H. unfold select_platform_widget. rewrite H.
  eexists. split; [reflexivity|]. simpl. auto.
Qed.

Lemma select_platform_widget_default_witness :
  exists self',
    select_platform_widget model_configs api_key_map
      (<["ANTHROPIC_API_KEY" := "a-1"]> (<["DEEPSEEK_API_KEY" := "sk-2"]> ∅))
      __init__ = Ok self' /\
    platform_dropdown self' =
      Some {| options := ["Deepseek"; "Anthropic"]; value := "Deepseek";
              description := "Platform:"; disabled := false |} /\
    selected_platform self' = Some "Deepseek" /\
    platform_output self' = [Displayed PlatformDropdown].
Proof.
  apply select_platform_widget_default. reflexivity.
Defined.

(** ** The formatted selection *)

Section ModelParams.

Variable configs : list (string * list (string * string)).

Lemma find_model_params_None (entries : list (string * string)) (model : string) :
  find_model_params entries model = None <-> ~ In model (map fst entries).
Proof.
  induction entries as [|[name key] entries IH]; simpl.
  - split; [intros _ [] | reflexivity].
  - destruct (String.eqb_spec name model) as [->|Hne].
    + split; [discriminate | intros H; exfalso; apply H; auto].
    + rewrite IH. split.
      * intros H [Heq|Hin]; [congruence | exact (H Hin)].
      * intros H Hin. apply H. auto.
Qed.

Lemma find_model_params_Some (entries : list (string * string)) (model s : string) :
  find_model_params entries model = Some s ->
  exists key, In (model, key) entries /\ s = key +:+ ":" +:+ model.
Proof.
  induction entries as [|[name key] entries IH]; simpl; [discriminate|].
  destruct (String.eqb_spec name model) as [->|Hne].
  - intros [= <-]. exists key. auto.
  - intros H. destruct (IH H) as (k & Hin & Hs). exists k. auto.
Qed.

Lemma get_model_params_set (self : ModelSelectUtil) (platform model : string) :
  selected_platform self = Some platform ->
  selected_model self = Some model ->
  platform <> "" -> model <> "" ->
  get_model_params configs self =
  find_model_params (default [] (dict_get configs platform)) model.
Proof.
  intros Hp Hm Hpne Hmne. unfold get_model_params. rewrite Hp, Hm. simpl.
  apply truthy_true in Hpne, Hmne. rewrite Hpne, Hmne. reflexivity.
Qed.

Lemma get_model_params_unset (self : ModelSelectUtil) :
  truthy_opt (selected_platform self) = false \/
  truthy_opt (selected_model self) = false ->
  get_model_params configs self = None.
Proof.
  unfold get_model_params. intros [H|H]; rewrite H; simpl.
  - reflexivity.
  - rewrite orb_true_r. reflexivity.
Qed.

End ModelParams.


Lemma moved_state_reselect :
  select_platform_widget model_configs api_key_map two_keys_environ moved_state
  = Ok reselect_state.
Proof. vm_compute. reflexivity. Qed.

Lemma reselect_trace_run :
  run model_configs api_key_map reselect_trace __init__ = Some reselect_state.
Proof. vm_compute. reflexivity. Qed.

(** Claim C3, amended.  [get_model_params] returns [None] exactly when
    [selected_platform] or [selected_model] is unset or empty, or the
    selected model is not among the model names listed for the selected
    platform; every string it returns is ["<provider_key>:<model_name>"]
    for the selected model and a key paired with it in the list of the
    selected platform. *)
Theorem get_model_params_spec
    (configs : list (string * list (string * string))) (self : ModelSelectUtil) :
  (get_model_params configs self = None <->
     (selected_platform self = None \/ selected_platform self = Some "") \/
     (selected_model self = None \/ selected_model self = Some "") \/
     exists platform model,
       selected_platform self = Some platform /\
       selected_model self = Some model /\
       ~ In model (model_options configs platform)) /\
  (forall s, get_model_params configs self = Some s ->
     exists platform model platform_key,
       selected_platform self = Some platform /\
       selected_model self = Some model /\
       In (model, platform_key) (default [] (dict_get configs platform)) /\
       s = platform_key +:+ ":" +:+ model).
Proof.
  destruct (truthy_opt (selected_platform self)) eqn:Hp.
  2:{ rewrite get_model_params_unset by auto.
      apply truthy_opt_false in Hp. split; [tauto | discriminate]. }
  destruct (truthy_opt (selected_model self)) eqn:Hm.
  2:{ rewrite get_model_params_unset by auto.
      apply truthy_opt_false in Hm. split; [tauto | discriminate]. }
  apply truthy_opt_true in Hp as (platform & Hp & Hpne).
  apply truthy_opt_true in Hm as (model & Hm & Hmne).
  rewrite (get_model_params_set configs self platform model) by assumption.
  split.
  - rewrite find_model_params_None. unfold model_options. split.
    + intros H. right. right. exists platform, model. auto.
    + intros [[H|H]|[[H|H]|(p & m & Hp' & Hm' & H)]]; congruence.
  - intros s Hs. apply find_model_params_Some in Hs as (key & Hin & ->).
    exists platform, model, key. auto.
Qed.

Lemma get_model_params_spec_witness :
  exists platform model platform_key,
    In (model, platform_key) (default [] (dict_get model_configs platform)) /\
    "deepseek:deepseek-coder" = platform_key +:+ ":" +:+ model.
Proof.
  destruct (proj2 (get_model_params_spec model_configs
              {| platform_dropdown := None; model_dropdown := None;
                 selected_platform := Some "Deepseek";
                 selected_model := Some "deepseek-coder";
                 platform_output := []; model_output := [] |})
              "deepseek:deepseek-coder" eq_refl)
    as (platform & model & key & _ & _ & Hin & Hs).
  exists platform, model, key. auto.
Defined.

(** Claim C3 as stated fails: the instance reached by [reselect_trace] has
    both attributes set and [get_model_params] returns [None]. *)
Lemma get_model_params_none_with_both_set :
  ~ (forall self,
        reachable model_configs api_key_map self ->
        (get_model_params model_configs self = None <->
         selected_platform self = None \/ selected_model self = None)).
Proof.
  intros H.
  assert (Hr : reachable model_configs api_key_map reselect_state)
    by (exists reselect_trace; exact reselect_trace_run).
  apply H in Hr. destruct (proj1 Hr eq_refl) as [Hn|Hn]; discriminate Hn.
Qed.

(** Claim C8.  When both attributes are set and the selected model is not
    among the model names listed for the selected platform,
    [get_model_params] returns [None]. *)
Theorem get_model_params_mismatch
    (configs : list (string * list (string * string))) (self : ModelSelectUtil)
    (platform model : string) :
  selected_platform self = Some platform ->
  selected_model self = Some model ->
  ~ In model (model_options configs platform) ->
  get_model_params configs self = None.
Proof.
  intros Hp Hm Hnot.
  destruct (String.eqb_spec platform "") as [->|Hpne];
    [apply get_model_params_unset; left; rewrite Hp; reflexivity|].
  destruct (String.eqb_spec model "") as [->|Hmne];
    [apply get_model_params_unset; right; rewrite Hm; reflexivity|].
  rewrite (get_model_params_set configs self platform model) by assumption.
  apply find_model_params_None. exact Hnot.
Qed.

Lemma get_model_params_mismatch_witness :
  get_model_params model_configs reselect_state = None.
Proof.
  apply (get_model_params_mismatch model_configs reselect_state
           "OpenAI" "deepseek-chat"); [reflexivity | reflexivity |].
  simpl. intros [H|[H|[H|[]]]]; discriminate H.
Defined.

(** ** The model drop-down *)

(** Claim C9.  When [selected_platform] is unset, or the selected platform
    has no configured models, [select_model_widget] leaves
    [selected_model] and [model_dropdown] as they were. *)
Theorem select_model_widget_keeps_selection
    (configs : list (string * list (string * string))) (self : ModelSelectUtil) :
  selected_platform self = None \/
  (exists platform,
      selected_platform self = Some platform /\
      model_options configs platform = []) ->
  selected_model (select_model_widget configs self) = selected_model self /\
  model_dropdown (select_model_widget configs self) = model_dropdown self.
Proof.
  unfold select_model_widget. intros [H|(platform & H & Hnone)]; rewrite H.
  - auto.
  - destruct (negb (truthy platform)); [auto|]. rewrite Hnone. auto.
Qed.

Lemma select_model_widget_keeps_selection_witness :
  selected_model
    (select_model_widget model_configs
       {| platform_dropdown := None;
          model_dropdown :=
            Some {| options := ["gpt-4o"; "gpt-3.5-turbo"; "gpt-5-nano"];
                    value := "gpt-5-nano";
                    description := "Model:"; disabled := false |};
          selected_platform := Some "Mistral";
          selected_model := Some "gpt-5-nano";
          platform_output := []; model_output := [Displayed ModelDropdown] |})
  = Some "gpt-5-nano".
Proof.
  apply select_model_widget_keeps_selection.
  right. exists "Mistral". split; reflexivity.
Defined.

(** ** The two degenerate conditions *)

(** Claim C5.  [select_platform_widget] never raises on the provider table
    of the source; when no provider has a usable key its list of
    available providers is empty and it only replaces the content of
    [platform_output] by the message.  When the selected platform has no
    configured models, [select_model_widget] only replaces the content of
    [model_output] by its message. *)
Theorem degenerate_conditions_show_message :
  (forall environ self,
      exists self',
        select_platform_widget model_configs api_key_map environ self = Ok self') /\
  (forall environ self,
      (forall name configs model platform_key,
          In (name, configs) model_configs ->
          In (model, platform_key) configs ->
          ~ key_usable api_key_map environ platform_key) ->
      available_platforms model_configs api_key_map environ = Ok [] /\
      select_platform_widget model_configs api_key_map environ self =
        Ok {| platform_dropdown := platform_dropdown self;
              model_dropdown := model_dropdown self;
              selected_platform := selected_platform self;
              selected_model := selected_model self;
              platform_output := [Printed no_api_keys_message];
              model_output := model_output self |}) /\
  (forall configs self platform,
      selected_platform self = Some platform ->
      platform <> "" ->
      model_options configs platform = [] ->
      select_model_widget configs self =
        {| platform_dropdown := platform_dropdown self;
           model_dropdown := model_dropdown self;
           selected_platform := selected_platform self;
           selected_model := selected_model self;
           platform_output := platform_output self;
           model_output :=
             [Printed ("No models configured for " +:+ platform +:+ ".")] |}).
Proof.
  split; [|split].
  - intros environ self. unfold select_platform_widget.
    destruct (available_platforms_total environ) as [l ->].
    destruct l; eauto.
  - intros environ self Hnone.
    destruct (available_platforms_total environ) as [available Hl].
    assert (available = []) as ->.
    { destruct available as [|name available]; [reflexivity|]. exfalso.
      assert (Hin : In name (map fst model_configs))
        by (apply (available_platforms_names _ _ _ Hl); left; reflexivity).
      apply in_map_iff in Hin as ([name' configs] & Heq & Hin).
      simpl in Heq. subst name'.
      pose proof model_configs_configured as Hall.
      unfold all_configured in Hall. rewrite Forall_forall in Hall.
      specialize (Hall _ (proj2 (list_elem_of_In _ _) Hin)). simpl in Hall.
      destruct configs as [|[model key] configs]; [congruence|].
      apply (Hnone name _ model key Hin (or_introl eq_refl)).
      apply (available_platforms_usable _ _ _ _ _ _ Hl Hin (or_introl eq_refl)).
      left. reflexivity. }
    split; [exact Hl|]. unfold select_platform_widget. rewrite Hl. reflexivity.
  - intros configs self platform Hp Hne Hnone. unfold select_model_widget.
    rewrite Hp. apply truthy_true in Hne. rewrite Hne. simpl. rewrite Hnone.
    reflexivity.
Qed.

Lemma degenerate_conditions_show_message_witness :
  platform_output
    <$> (match select_platform_widget model_configs api_key_map
                 (<["OPENAI_API_KEY" := ""]> ∅) __init__ with
         | Ok self' => Some self'
         | Raise _ => None
         end)
  = Some [Printed no_api_keys_message].
Proof.
  destruct degenerate_conditions_show_message as (_ & Hempty & _).
  destruct (Hempty (<["OPENAI_API_KEY" := ""]> ∅) __init__) as [_ ->].
  - intros name configs model platform_key Hp Hm (env_var & v & Hk & Hv & Hne).
    apply Hne. clear Hne Hp Hm Hk.
    destruct (decide (env_var = "OPENAI_API_KEY")) as [->|Hneq].
    + rewrite lookup_insert_eq in Hv. congruence.
    + rewrite lookup_insert_ne, lookup_empty in Hv by congruence. discriminate.
  - reflexivity.
Defined.

(** ** The cascade from the platform to the model *)

Section Cascade.

Variable configs : list (string * list (string * string)).
Variable key_map : gmap string string.

(** No provider is named by the empty string. *)
Hypothesis names_nonempty : forall name, In name (map fst configs) -> name <> "".

Lemma dict_get_name (name : string) :
  In name (map fst configs) ->
  exists entries, dict_get configs name = Some entries /\ In (name, entries) configs.
Proof.
  intros Hin. destruct (dict_get configs name) as [entries|] eqn:Hget.
  - exists entries. split; [reflexivity | apply dict_get_In, Hget].
  - apply dict_get_None in Hget. contradiction.
Qed.

Lemma available_platforms_configured environ available :
  available_platforms configs key_map environ = Ok available ->
  forall x, In x available -> configured configs x.
Proof.
  intros Hl x Hx.
  pose proof (available_loop_configured _ _ _ _ _ Hl) as Hall.
  apply (available_loop_In _ _ _ _ _ Hl) in Hx as [[]|(c & k & Hc & _)].
  apply (in_map fst) in Hc. simpl in Hc. split.
  - apply names_nonempty, Hc.
  - destruct (dict_get_name x Hc) as (entries & Hget & Hin).
    unfold model_options. rewrite Hget. simpl.
    unfold all_configured in Hall. rewrite Forall_forall in Hall.
    specialize (Hall _ (proj2 (list_elem_of_In _ _) Hin)). simpl in Hall.
    destruct entries; [congruence | discriminate].
Qed.

(** What [select_model_widget] does for a configured platform. *)
Lemma select_model_widget_configured (self : ModelSelectUtil) (platform : string) :
  selected_platform self = Some platform ->
  configured configs platform ->
  exists first others,
    model_options configs platform = first :: others /\
    select_model_widget configs self =
      {| platform_dropdown := platform_dropdown self;
         model_dropdown :=
           Some {| options := first :: others; value := first;
                   description := "Model:"; disabled := false |};
         selected_platform := selected_platform self;
         selected_model := Some first;
         platform_output := platform_output self;
         model_output := [Displayed ModelDropdown] |}.
Proof.
  intros Hp [Hne Hopts]. unfold select_model_widget. rewrite Hp.
  apply truthy_true in Hne. rewrite Hne. simpl.
  destruct (model_options configs platform) as [|first others];
    [congruence|].
  exists first, others. auto.
Qed.

Lemma select_model_widget_platform_side (self : ModelSelectUtil) :
  platform_dropdown (select_model_widget configs self) = platform_dropdown self /\
  selected_platform (select_model_widget configs self) = selected_platform self.
Proof.
  unfold select_model_widget.
  destruct (selected_platform self) as [platform|] eqn:Hp; [|auto].
  destruct (negb (truthy platform)); [auto|].
  destruct (model_options configs platform); simpl; auto.
Qed.

Lemma select_model_widget_ok (self : ModelSelectUtil) :
  platform_side_ok configs self ->
  platform_side_ok configs (select_model_widget configs self) /\
  model_side_ok configs (select_model_widget configs self).
Proof.
  intros (Hd & Hp & Hnone).
  destruct (selected_platform self) as [platform|] eqn:Hsel.
  - destruct (select_model_widget_configured self platform Hsel (Hp _ eq_refl))
      as (first & others & Hopts & ->).
    split; [split; [|split]|split]; simpl.
    + exact Hd.
    + rewrite Hsel. exact Hp.
    + rewrite Hsel. discriminate.
    + intros d [= <-]. exists platform. simpl. auto.
    + intros model [= <-]. eexists. split; [reflexivity|]. simpl. auto.
  - unfold select_model_widget. rewrite Hsel.
    destruct (Hnone eq_refl) as [Hmd Hsm].
    split; [split; [|split]|split].
    + exact Hd.
    + rewrite Hsel. exact Hp.
    + auto.
    + rewrite Hmd. discriminate.
    + rewrite Hsm. discriminate.
Qed.

Lemma select_platform_widget_ok environ (self self' : ModelSelectUtil) :
  platform_side_ok configs self ->
  select_platform_widget configs key_map environ self = Ok self' ->
  platform_side_ok configs self'.
Proof.
  intros (Hd & Hp & Hnone). unfold select_platform_widget.
  destruct (available_platforms configs key_map environ) as [available|e] eqn:Hl;
    [|discriminate].
  pose proof (available_platforms_configured _ _ Hl) as Hconf.
  destruct available as [|first others]; intros [= <-]; simpl.
  - split; [|split]; assumption.
  - split; [|split]; simpl.
    + intros d [= <-]. simpl. exact Hconf.
    + intros platform [= <-]. apply Hconf. left. reflexivity.
    + discriminate.
Qed.

(** An event that ends with a repopulation is [select_model_widget]
    applied to an instance whose platform side is in order. *)
Lemma cascade_step (ev : event) (self self' : ModelSelectUtil) :
  platform_side_ok configs self ->
  step configs key_map ev self = Some self' ->
  cascades ev = true ->
  exists mid,
    platform_side_ok configs mid /\ self' = select_model_widget configs mid.
Proof.
  intros Hok Hstep Hc. destruct ev as [environ| |environ|new|new];
    try discriminate; simpl in Hstep.
  - injection Hstep as <-. eauto.
  - unfold display_widgets in Hstep.
    destruct (select_platform_widget configs key_map environ self) as [mid|e] eqn:Hs;
      [|discriminate].
    injection Hstep as <-. exists mid. split; [|reflexivity].
    eapply select_platform_widget_ok; eassumption.
  - destruct (platform_dropdown self) as [d|] eqn:Hd; [|discriminate].
    destruct (changes_value d new) eqn:Hopt; [|discriminate].
    injection Hstep as <-. apply changes_value_In in Hopt.
    destruct Hok as (Hdrop & Hp & Hnone).
    eexists. split; [|reflexivity]. split; [|split]; simpl.
    + intros d' [= <-]. simpl. apply (Hdrop d Hd).
    + intros platform [= <-]. apply (Hdrop d Hd). exact Hopt.
    + discriminate.
Qed.

Lemma step_ok (b : bool) (ev : event) (self self' : ModelSelectUtil) :
  platform_side_ok configs self ->
  (b = true -> model_side_ok configs self) ->
  step configs key_map ev self = Some self' ->
  platform_side_ok configs self' /\
  (after_event b ev = true -> model_side_ok configs self').
Proof.
  intros Hok Hb Hstep.
  destruct (cascades ev) eqn:Hc.
  - destruct (cascade_step ev self self' Hok Hstep Hc) as (mid & Hmid & ->).
    destruct (select_model_widget_ok mid Hmid). auto.
  - destruct ev as [environ| |environ|new|new]; try discriminate;
      simpl in Hstep |- *.
    + destruct (select_platform_widget configs key_map environ self) as [s|e] eqn:Hs;
        [|discriminate].
      injection Hstep as <-. split; [|discriminate].
      eapply select_platform_widget_ok; eassumption.
    + destruct (model_dropdown self) as [d|] eqn:Hd; [|discriminate].
      destruct (changes_value d new) eqn:Hopt; [|discriminate].
      injection Hstep as <-. apply changes_value_In in Hopt.
      destruct Hok as (Hdrop & Hp & Hnone). split.
      * split; [|split]; simpl; [exact Hdrop | exact Hp |].
        intros Hsel. destruct (Hnone Hsel). congruence.
      * intros ->. destruct (Hb eq_refl) as [Hmd _].
        split; simpl.
        -- intros d' [= <-]. simpl. apply Hmd, Hd.
        -- intros model [= <-]. eexists. split; [reflexivity|]. exact Hopt.
Qed.


Lemma init_ok : platform_side_ok configs __init__ /\ model_side_ok configs __init__.
Proof.
  split; [split; [|split]|split]; simpl; try discriminate. auto.
Qed.

Lemma model_side_ok_belongs (self : ModelSelectUtil) :
  model_side_ok configs self -> model_belongs configs self.
Proof.
  intros [Hmd Hsm] platform model Hp Hm.
  destruct (Hsm model Hm) as (d & Hd & Hin).
  destruct (Hmd d Hd) as (platform' & Hp' & Hopts).
  rewrite Hopts in Hin. congruence.
Qed.

End Cascade.

(** ** The selected model and the selected platform *)

Lemma model_configs_names name :
  In name (map fst model_configs) -> name <> "".
Proof.
  simpl. intros [<-|[<-|[<-|[<-|[]]]]]; discriminate.
Qed.

(** Claim C1 as stated fails: after [reselect_trace] the selected
    platform is ["OpenAI"] and the selected model is ["deepseek-chat"]. *)
Lemma reselect_breaks_model_belongs :
  ~ (forall self,
        reachable model_configs api_key_map self ->
        model_belongs model_configs self).
Proof.
  intros H.
  assert (Hr : reachable model_configs api_key_map reselect_state)
    by (exists reselect_trace; exact reselect_trace_run).
  specialize (H _ Hr "OpenAI" "deepseek-chat" eq_refl eq_refl).
  simpl in H. destruct H as [H|[H|[H|[]]]]; discriminate H.
Qed.

(** *** Events on replaced drop-downs *)

Lemma In_list_insert {A : Type} (l : list A) (i : nat) (x y : A) :
  In y (<[i := x]> l) -> y = x \/ In y l.
Proof.
  revert i. induction l as [|a l IH]; intros i; simpl.
  - intros [].
  - destruct i as [|i]; simpl.
    + intros [<-|H]; auto.
    + intros [<-|H]; [auto|]. destruct (IH i H); auto.
Qed.

Lemma lookup_In {A : Type} (l : list A) (i : nat) (x : A) :
  l !! i = Some x -> In x l.
Proof.
  intros H. apply list_elem_of_In. eapply list_elem_of_lookup_2, H.
Qed.

Section NotebookInvariant.

Variable configs : list (string * list (string * string)).
Variable key_map : gmap string string.

Hypothesis names_nonempty : forall name, In name (map fst configs) -> name <> "".

(** No event unsets the selected platform. *)
Lemma step_selected_platform_None (ev : event) (self self' : ModelSelectUtil) :
  step configs key_map ev self = Some self' ->
  selected_platform self' = None -> selected_platform self = None.
Proof.
  destruct ev as [environ| |environ|new|new]; simpl.
  - unfold select_platform_widget.
    destruct (available_platforms configs key_map environ) as [[|first others]|e];
      [| |discriminate]; intros [= <-]; simpl; [auto | discriminate].
  - intros [= <-].
    rewrite (proj2 (select_model_widget_platform_side configs self)). auto.
  - unfold display_widgets, select_platform_widget.
    destruct (available_platforms configs key_map environ) as [[|first others]|e];
      [| |discriminate]; intros [= <-];
      rewrite (proj2 (select_model_widget_platform_side configs _)); simpl;
      [auto | discriminate].
  - destruct (platform_dropdown self) as [d|]; [|discriminate].
    destruct (changes_value d new); [|discriminate]. intros [= <-].
    change (on_platform_change configs (value_change new) ?x)
      with (select_model_widget configs
              {| platform_dropdown := platform_dropdown x;
                 model_dropdown := model_dropdown x;
                 selected_platform := Some new;
                 selected_model := selected_model x;
                 platform_output := platform_output x;
                 model_output := model_output x |}).
    rewrite (proj2 (select_model_widget_platform_side configs _)). discriminate.
  - destruct (model_dropdown self) as [d|]; [|discriminate].
    destruct (changes_value d new); [|discriminate]. intros [= <-]. simpl. auto.
Qed.

Lemma select_model_widget_selected (self : ModelSelectUtil) :
  platform_side_ok configs self ->
  model_selected (select_model_widget configs self).
Proof.
  intros Hok Hsel.
  rewrite (proj2 (select_model_widget_platform_side configs self)) in Hsel.
  destruct (selected_platform self) as [platform|] eqn:Hp; [|congruence].
  destruct (select_model_widget_configured configs self platform Hp
              (proj1 (proj2 Hok) _ Hp)) as (first & others & _ & ->).
  simpl. discriminate.
Qed.

Lemma step_model_selected (b : bool) (ev : event) (self self' : ModelSelectUtil) :
  platform_side_ok configs self ->
  (b = true -> model_selected self) ->
  step configs key_map ev self = Some self' ->
  after_event b ev = true ->
  model_selected self'.
Proof.
  intros Hok Hb Hstep Hafter.
  destruct (cascades ev) eqn:Hc.
  - destruct (cascade_step configs key_map names_nonempty ev self self'
                Hok Hstep Hc) as (mid & Hmid & ->).
    apply select_model_widget_selected, Hmid.
  - destruct ev as [environ| |environ|new|new]; try discriminate;
      simpl in Hstep, Hafter.
    destruct (model_dropdown self) as [d|]; [|discriminate].
    destruct (changes_value d new); [|discriminate].
    injection Hstep as <-. intros _. simpl. discriminate.
Qed.

(** The state [on_platform_change] hands to [select_model_widget] when a
    replaced platform drop-down changes to one of its options. *)
Lemma replaced_platform_change_mid (w : Notebook) (d : Dropdown) (new : string) :
  platform_side_ok configs (instance w) ->
  replaced_ok configs w ->
  In d (replaced_platform_dropdowns w) ->
  In new (options d) ->
  exists mid,
    platform_side_ok configs mid /\
    selected_platform mid = Some new /\
    on_platform_change configs (value_change new) (instance w) =
    select_model_widget configs mid.
Proof.
  intros (Hpd & Hsp & Hnone) [Hrep _] Hd Hnew.
  exists {| platform_dropdown := platform_dropdown (instance w);
            model_dropdown := model_dropdown (instance w);
            selected_platform := Some new;
            selected_model := selected_model (instance w);
            platform_output := platform_output (instance w);
            model_output := model_output (instance w) |}.
  split; [|split; reflexivity]. split; [|split]; simpl.
  - exact Hpd.
  - intros platform [= <-]. apply (Hrep d Hd new Hnew).
  - discriminate.
Qed.

Lemma notebook_step_ok (b : bool) (nev : notebook_event) (w w' : Notebook) :
  platform_side_ok configs (instance w) ->
  replaced_ok configs w ->
  (b = true -> model_side_ok configs (instance w) /\ model_selected (instance w)) ->
  notebook_step configs key_map nev w = Some w' ->
  platform_side_ok configs (instance w') /\
  replaced_ok configs w' /\
  (after_notebook_event b nev = true ->
   model_side_ok configs (instance w') /\ model_selected (instance w')).
Proof.
  intros Hok Hrep Hb Hstep.
  destruct nev as [ev|i new|i new]; simpl in Hstep.
  - destruct (step configs key_map ev (instance w)) as [self'|] eqn:Hs;
      [|discriminate].
    injection Hstep as <-. simpl.
    destruct (step_ok configs key_map names_nonempty b ev (instance w) self' Hok
                (fun Hbt => proj1 (Hb Hbt)) Hs) as [Hok' Hside].
    split; [exact Hok'|]. split; [split|].
    + simpl. intros d Hd.
      destruct (rebuilds_platform configs key_map ev); [|apply (proj1 Hrep d Hd)].
      destruct (platform_dropdown (instance w)) as [old|] eqn:Hold; simpl in Hd.
      * destruct Hd as [<-|Hd]; [apply (proj1 Hok old Hold) | apply (proj1 Hrep d Hd)].
      * apply (proj1 Hrep d Hd).
    + simpl. intros Hnone.
      pose proof (step_selected_platform_None ev _ _ Hs Hnone) as Hbefore.
      destruct (proj2 (proj2 Hok) Hbefore) as [Hmd _].
      rewrite Hmd, (proj2 Hrep Hbefore). simpl.
      destruct (rebuilds_model configs key_map ev (instance w)); reflexivity.
    + intros Hafter. split; [apply Hside, Hafter|].
      apply (step_model_selected b ev (instance w) self' Hok
               (fun Hbt => proj2 (Hb Hbt)) Hs Hafter).
  - destruct (replaced_platform_dropdowns w !! i) as [d|] eqn:Hd; [|discriminate].
    destruct (changes_value d new) eqn:Hopt; [|discriminate].
    injection Hstep as <-. simpl.
    apply lookup_In in Hd. apply changes_value_In in Hopt.
    destruct (replaced_platform_change_mid w d new Hok Hrep Hd Hopt)
      as (mid & Hmid & Hmidsel & ->).
    destruct (select_model_widget_ok configs mid Hmid) as [Hok' Hside].
    split; [exact Hok'|]. split; [split|].
    + simpl. intros d' Hd' x Hx.
      apply In_list_insert in Hd' as [->|Hd'].
      * apply (proj1 Hrep d Hd x Hx).
      * apply (proj1 Hrep d' Hd' x Hx).
    + simpl. intros Hnone.
      rewrite (proj2 (select_model_widget_platform_side configs mid)) in Hnone.
      congruence.
    + intros _. split; [exact Hside|].
      apply select_model_widget_selected, Hmid.
  - destruct (replaced_model_dropdowns w !! i) as [d|] eqn:Hd; [|discriminate].
    destruct (changes_value d new) eqn:Hopt; [|discriminate].
    injection Hstep as <-. simpl.
    destruct Hok as (Hpd & Hsp & Hnone).
    split; [split; [|split]|split; [split|]]; simpl.
    + exact Hpd.
    + exact Hsp.
    + intros Hsel. rewrite (proj2 Hrep Hsel) in Hd. discriminate.
    + apply Hrep.
    + intros Hsel. rewrite (proj2 Hrep Hsel) in Hd. discriminate.
    + discriminate.
Qed.

End NotebookInvariant.

Section NotebookRuns.

Variable configs : list (string * list (string * string)).
Variable key_map : gmap string string.

Hypothesis names_nonempty : forall name, In name (map fst configs) -> name <> "".

Lemma notebook_run_ok (nevs : list notebook_event) :
  forall (b : bool) (w w' : Notebook),
    platform_side_ok configs (instance w) ->
    replaced_ok configs w ->
    (b = true -> model_side_ok configs (instance w) /\ model_selected (instance w)) ->
    notebook_run configs key_map nevs w = Some w' ->
    platform_side_ok configs (instance w') /\
    (repopulated_from b nevs = true ->
     model_side_ok configs (instance w') /\ model_selected (instance w')).
Proof.
  induction nevs as [|nev nevs IH]; intros b w w' Hok Hrep Hb Hrun; simpl in *.
  - injection Hrun as <-. auto.
  - destruct (notebook_step configs key_map nev w) as [mid|] eqn:Hstep;
      [|discriminate].
    destruct (notebook_step_ok configs key_map names_nonempty b nev w mid
                Hok Hrep Hb Hstep) as (Hok' & Hrep' & Hb').
    exact (IH _ _ _ Hok' Hrep' Hb' Hrun).
Qed.

Lemma fresh_notebook_ok :
  platform_side_ok configs (instance fresh_notebook) /\
  replaced_ok configs fresh_notebook /\
  model_side_ok configs (instance fresh_notebook) /\
  model_selected (instance fresh_notebook).
Proof.
  destruct (init_ok configs) as [Hp Hm].
  split; [exact Hp|]. split; [|split; [exact Hm|]].
  - split; simpl; [intros d [] | reflexivity].
  - intros H. simpl in H. congruence.
Qed.

Lemma repopulated_selection (nevs : list notebook_event) (w : Notebook) :
  notebook_run configs key_map nevs fresh_notebook = Some w ->
  repopulated nevs = true ->
  model_side_ok configs (instance w) /\
  forall platform,
    selected_platform (instance w) = Some platform ->
    platform <> "" /\
    exists model,
      selected_model (instance w) = Some model /\
      In model (model_options configs platform).
Proof.
  intros Hrun Hsync.
  destruct fresh_notebook_ok as (Hp & Hr & Hm & Hs).
  destruct (notebook_run_ok nevs true fresh_notebook w Hp Hr
              (fun _ => conj Hm Hs) Hrun) as [Hok Hside].
  destruct (Hside Hsync) as [Hmodel Hsel]. split; [exact Hmodel|].
  intros platform Hplat. split; [apply (proj1 (proj2 Hok) _ Hplat)|].
  destruct (selected_model (instance w)) as [model|] eqn:Hm'.
  - exists model. split; [reflexivity|].
    destruct (proj2 Hmodel model Hm') as (d & Hd & Hin).
    destruct (proj1 Hmodel d Hd) as (platform' & Hplat' & Hopts).
    rewrite Hopts in Hin. congruence.
  - exfalso. apply Hsel; [rewrite Hplat; discriminate | exact Hm'].
Qed.

(** The events of [step] are the notebook events on held drop-downs. *)
Lemma notebook_run_held (evs : list event) :
  forall (w w' : Notebook),
    notebook_run configs key_map (map OnHeld evs) w = Some w' ->
    run configs key_map evs (instance w) = Some (instance w').
Proof.
  induction evs as [|ev evs IH]; intros w w' Hrun; simpl in *.
  - injection Hrun as <-. reflexivity.
  - destruct (step configs key_map ev (instance w)) as [self'|] eqn:Hs;
      [|discriminate].
    apply (IH _ _ Hrun).
Qed.

End NotebookRuns.

Lemma repopulated_from_held (evs : list event) (b : bool) :
  repopulated_from b (map OnHeld evs) = synced_from b evs.
Proof.
  revert b. induction evs as [|ev evs IH]; intros b; simpl; [reflexivity|].
  apply IH.
Qed.

(** A model change on a replaced model drop-down, with nothing after it,
    leaves a model of the earlier platform selected. *)
Lemma replaced_model_change_selects_other_model :
  exists w,
    notebook_run model_configs api_key_map replaced_model_trace fresh_notebook
      = Some w /\
    selected_platform (instance w) = Some "Deepseek" /\
    selected_model (instance w) = Some "gpt-5-nano" /\
    repopulated replaced_model_trace = false.
Proof.
  eexists. split; [vm_compute; reflexivity|]. repeat split.
Qed.

(** Claim C1, amended.  Take any sequence of method calls
    ([select_platform_widget], [select_model_widget], [display_widgets])
    and of platform and model changes on drop-downs the instance holds
    or has replaced, starting from a fresh instance, in which the most
    recent bare [select_platform_widget] call or model change on a
    replaced drop-down (if there is one) has been followed by a
    [select_model_widget] call, a [display_widgets] call or a platform
    change.  In the state it produces, if [selected_platform] and
    [selected_model] are both set, the selected model is one of the
    model names listed for the selected platform. *)
Theorem selected_model_belongs_after_repopulation
    (nevs : list notebook_event) (w : Notebook) :
  notebook_run model_configs api_key_map nevs fresh_notebook = Some w ->
  repopulated nevs = true ->
  model_belongs model_configs (instance w).
Proof.
  intros Hrun Hsync. apply model_side_ok_belongs.
  apply (repopulated_selection model_configs api_key_map model_configs_names
           nevs w Hrun Hsync).
Qed.

Lemma selected_model_belongs_after_repopulation_witness :
  exists w,
    notebook_run model_configs api_key_map
      (replaced_model_trace ++
       [OnHeld (SelectPlatformWidget two_keys_environ);
        OnReplacedPlatform 0 "OpenAI";
        OnHeld (ModelChange "gpt-3.5-turbo")])
      fresh_notebook = Some w /\
    selected_platform (instance w) = Some "OpenAI" /\
    selected_model (instance w) = Some "gpt-3.5-turbo" /\
    model_belongs model_configs (instance w).
Proof.
  eexists. split; [vm_compute; reflexivity|].
  split; [reflexivity|]. split; [reflexivity|].
  apply (selected_model_belongs_after_repopulation
           (replaced_model_trace ++
            [OnHeld (SelectPlatformWidget two_keys_environ);
             OnReplacedPlatform 0 "OpenAI";
             OnHeld (ModelChange "gpt-3.5-turbo")]));
    reflexivity.
Defined.




(** * Further properties of the code *)

(** ** The list of available providers, in general *)

Section AvailableList.

Variable key_map : gmap string string.

Lemma available_loop_filter environ items acc :
  all_configured items ->
  available_loop key_map environ items acc =
  Ok (acc ++ map fst (List.filter (provider_available key_map environ) items))%list.
Proof.
  intros Hall. revert acc.
  induction Hall as [|[name entries] items Hne _ IH]; intros acc; simpl.
  - rewrite app_nil_r. reflexivity.
  - destruct entries as [|[model key] entries]; [simpl in Hne; congruence|].
    unfold provider_available at 1. simpl.
    destruct (_check_api_key_exists key_map environ key); rewrite IH.
    + simpl. rewrite <- app_assoc. reflexivity.
    + reflexivity.
Qed.

Lemma available_loop_raises environ items acc :
  available_loop key_map environ items acc = Raise IndexError <->
  exists name, In (name, []) items.
Proof.
  revert acc. induction items as [|[name entries] items IH]; intros acc; simpl.
  - split; [discriminate | intros [name []]].
  - destruct entries as [|[model key] entries].
    + split; [intros _; exists name; auto | reflexivity].
    + assert (Hshift : (exists n, In (n, []) items) <->
                       (exists n, (name, (model, key) :: entries) = (n, []) \/
                                  In (n, []) items)).
      { split.
        - intros [n Hn]. exists n. auto.
        - intros [n [Hn|Hn]]; [discriminate | exists n; exact Hn]. }
      rewrite <- Hshift.
      destruct (_check_api_key_exists key_map environ key); apply IH.
Qed.

Lemma filter_available_sublist environ1 environ2 items :
  (forall item, provider_available key_map environ1 item = true ->
                provider_available key_map environ2 item = true) ->
  sublist (map fst (List.filter (provider_available key_map environ1) items))
          (map fst (List.filter (provider_available key_map environ2) items)).
Proof.
  intros Hle. induction items as [|item items IH]; simpl.
  - constructor.
  - destruct (provider_available key_map environ1 item) eqn:H1.
    + rewrite (Hle _ H1). simpl. apply sublist_skip, IH.
    + destruct (provider_available key_map environ2 item); simpl.
      * apply sublist_cons, IH.
      * exact IH.
Qed.

Lemma check_api_key_exists_kept environ1 environ2 platform_key :
  keys_kept environ1 environ2 ->
  _check_api_key_exists key_map environ1 platform_key = true ->
  _check_api_key_exists key_map environ2 platform_key = true.
Proof.
  intros Hkept. rewrite !check_api_key_exists_true.
  intros (env_var & v & Hk & Hvar & Hv & Hne).
  destruct (Hkept env_var v Hv Hne) as (v' & Hv' & Hne').
  exists env_var, v'. auto.
Qed.

End AvailableList.

(** Claim C10.  The list of available providers is decided by the key of
    the first model tuple of each provider and by nothing else in the
    model lists: whenever the loop returns, its list is the provider
    names, in table order, of the providers whose [configs[0][1]] passes
    [_check_api_key_exists]; and a second table with the same provider
    names and the same first keys gives the same list (or the same
    exception), whatever keys are paired with the remaining models. *)
Theorem available_platforms_first_key_only
    (configs1 : list (string * list (string * string)))
    (key_map environ : gmap string string) :
  (forall available,
      available_platforms configs1 key_map environ = Ok available ->
      available =
      map fst
        (List.filter
           (fun item =>
              match first_platform_key (snd item) with
              | Some platform_key =>
                  _check_api_key_exists key_map environ platform_key
              | None => false
              end)
           configs1)) /\
  (forall configs2,
      Forall2 (fun pc1 pc2 =>
                 fst pc1 = fst pc2 /\
                 first_platform_key (snd pc1) = first_platform_key (snd pc2))
              configs1 configs2 ->
      available_platforms configs1 key_map environ =
      available_platforms configs2 key_map environ).
Proof.
  split.
  - intros available Hl.
    pose proof (available_loop_configured _ _ _ _ _ Hl) as Hall.
    unfold available_platforms in Hl.
    rewrite (available_loop_filter key_map environ configs1 [] Hall) in Hl.
    injection Hl as <-. simpl. f_equal. apply filter_ext.
    intros [name entries]. unfold provider_available. simpl.
    destruct entries as [|[model key] entries]; reflexivity.
  - intros configs2 H. unfold available_platforms.
    apply available_loop_first_key, H.
Qed.

Lemma available_platforms_first_key_only_witness :
  ["First"] =
  map fst
    (List.filter
       (fun item =>
          match first_platform_key (snd item) with
          | Some platform_key =>
              _check_api_key_exists api_key_map
                (<["OPENAI_API_KEY" := "sk-1"]> ∅) platform_key
          | None => false
          end)
       [ ("First", [ ("m1", "openai"); ("m2", "gemini") ]);
         ("Second", [ ("m3", "gemini"); ("m4", "openai") ]) ]) /\
  available_platforms
    [ ("First", [ ("m1", "openai"); ("m2", "gemini") ]);
      ("Second", [ ("m3", "gemini"); ("m4", "openai") ]) ]
    api_key_map (<["OPENAI_API_KEY" := "sk-1"]> ∅) =
  available_platforms
    [ ("First", [ ("m1", "openai") ]);
      ("Second", [ ("m3", "gemini"); ("m4", "deepseek"); ("m5", "nowhere") ]) ]
    api_key_map (<["OPENAI_API_KEY" := "sk-1"]> ∅).
Proof.
  destruct (available_platforms_first_key_only
              [ ("First", [ ("m1", "openai"); ("m2", "gemini") ]);
                ("Second", [ ("m3", "gemini"); ("m4", "openai") ]) ]
              api_key_map (<["OPENAI_API_KEY" := "sk-1"]> ∅))
    as [Hlist Hsame].
  split.
  - apply Hlist. reflexivity.
  - apply Hsame. repeat constructor.
Defined.

(** Extra X1.  On a provider table in which every provider has a model,
    the list of available providers is the list of provider names, in the
    order of the table, of the providers whose first key passes the
    API-key check. *)
Theorem available_platforms_in_table_order
    (configs : list (string * list (string * string)))
    (key_map environ : gmap string string) :
  all_configured configs ->
  available_platforms configs key_map environ =
  Ok (map fst (List.filter (provider_available key_map environ) configs)).
Proof.
  intros Hall. unfold available_platforms.
  rewrite (available_loop_filter key_map environ configs [] Hall).
  reflexivity.
Qed.

Lemma available_platforms_in_table_order_witness :
  available_platforms model_configs api_key_map
    (<["ANTHROPIC_API_KEY" := "a-1"]> (<["DEEPSEEK_API_KEY" := "sk-2"]> ∅)) =
  Ok ["Deepseek"; "Anthropic"].
Proof.
  rewrite (available_platforms_in_table_order model_configs api_key_map _
             model_configs_configured).
  reflexivity.
Defined.

(** Extra X2.  [select_platform_widget] and [display_widgets] raise
    [IndexError] exactly when some provider of the table has an empty
    model list, whatever the environment and the instance. *)
Theorem select_platform_widget_raises_iff
    (configs : list (string * list (string * string)))
    (key_map environ : gmap string string) (self : ModelSelectUtil) :
  (select_platform_widget configs key_map environ self = Raise IndexError <->
   exists name, In (name, []) configs) /\
  (display_widgets configs key_map environ self = Raise IndexError <->
   exists name, In (name, []) configs).
Proof.
  assert (Hsel : select_platform_widget configs key_map environ self
                 = Raise IndexError <->
                 exists name, In (name, []) configs).
  { rewrite <- (available_loop_raises key_map environ configs []).
    unfold select_platform_widget, available_platforms.
    destruct (available_loop key_map environ configs []) as [[|first others]|[]];
      split; (reflexivity || discriminate). }
  split; [exact Hsel|].
  rewrite <- Hsel. unfold display_widgets.
  destruct (select_platform_widget configs key_map environ self) as [self'|[]];
    split; (reflexivity || discriminate).
Qed.

Lemma select_platform_widget_raises_iff_witness :
  display_widgets [ ("OpenAI", [ ("gpt-4o", "openai") ]); ("Local", []) ]
    api_key_map ∅ __init__ = Raise IndexError.
Proof.
  apply (select_platform_widget_raises_iff
           [ ("OpenAI", [ ("gpt-4o", "openai") ]); ("Local", []) ]
           api_key_map ∅ __init__).
  exists "Local". simpl. auto.
Defined.

(** Extra X3.  A provider whose first key has no entry in [api_key_map]
    is never in the list of available providers, whatever the
    environment holds. *)
Theorem provider_with_unmapped_key_unavailable
    (configs : list (string * list (string * string)))
    (key_map environ : gmap string string)
    (available : list string) (name : string) :
  available_platforms configs key_map environ = Ok available ->
  (forall entries platform_key,
      In (name, entries) configs ->
      first_platform_key entries = Some platform_key ->
      key_map !! platform_key = None) ->
  ~ In name available.
Proof.
  intros Hl Hunmapped Hin.
  apply (available_loop_In _ _ _ _ _ Hl) in Hin as [[]|(c & k & Hc & Hk & Hchk)].
  apply check_api_key_exists_true in Hchk as (env_var & v & Hmap & _).
  rewrite (Hunmapped c k Hc Hk) in Hmap. discriminate.
Qed.

Lemma provider_with_unmapped_key_unavailable_witness :
  available_platforms configs_with_unmapped_key api_key_map mistral_environ
    = Ok ["OpenAI"] /\
  ~ In "Mistral" ["OpenAI"].
Proof.
  split; [reflexivity|].
  apply (provider_with_unmapped_key_unavailable
           configs_with_unmapped_key api_key_map mistral_environ).
  - reflexivity.
  - intros entries platform_key [H|[H|[]]] Hk.
    + discriminate H.
    + injection H as <-. injection Hk as <-. reflexivity.
Defined.

(** Extra X4.  Setting more API keys only adds providers: when every
    variable with a non-empty value in one environment has a non-empty
    value in a second one, the list of available providers in the first
    is a sublist of the list in the second. *)
Theorem available_platforms_monotone
    (configs : list (string * list (string * string)))
    (key_map environ1 environ2 : gmap string string)
    (available1 available2 : list string) :
  keys_kept environ1 environ2 ->
  available_platforms configs key_map environ1 = Ok available1 ->
  available_platforms configs key_map environ2 = Ok available2 ->
  sublist available1 available2.
Proof.
  intros Hkept H1 H2.
  pose proof (available_loop_configured _ _ _ _ _ H1) as Hall.
  unfold available_platforms in H1, H2.
  rewrite (available_loop_filter key_map environ1 configs [] Hall) in H1.
  rewrite (available_loop_filter key_map environ2 configs [] Hall) in H2.
  injection H1 as <-. injection H2 as <-. simpl.
  apply filter_available_sublist. intros [name entries].
  unfold provider_available. simpl.
  destruct entries as [|[model key] entries]; [discriminate|].
  apply check_api_key_exists_kept, Hkept.
Qed.

Lemma available_platforms_monotone_witness :
  sublist ["Deepseek"] ["OpenAI"; "Deepseek"].
Proof.
  apply (available_platforms_monotone model_configs api_key_map
           (<["DEEPSEEK_API_KEY" := "sk-2"]> ∅) two_keys_environ).
  - intros env_var v Hv Hne.
    destruct (decide (env_var = "DEEPSEEK_API_KEY")) as [->|Hneq].
    + exists "sk-2". split; [reflexivity | discriminate].
    + rewrite lookup_insert_ne, lookup_empty in Hv by congruence. discriminate.
  - reflexivity.
  - reflexivity.
Defined.

(** ** What holds of an instance after any events *)

Section Widgets.

Variable configs : list (string * list (string * string)).
Variable key_map : gmap string string.

Lemma available_platforms_models environ available :
  available_platforms configs key_map environ = Ok available ->
  forall x, In x available ->
            In x (map fst configs) /\ model_options configs x <> [].
Proof.
  intros Hl x Hx.
  pose proof (available_loop_configured _ _ _ _ _ Hl) as Hall.
  apply (available_loop_In _ _ _ _ _ Hl) in Hx as [[]|(c & k & Hc & _)].
  apply (in_map fst) in Hc. simpl in Hc. split; [exact Hc|].
  destruct (dict_get_name configs x Hc) as (entries & Hget & Hin).
  unfold model_options. rewrite Hget. simpl.
  unfold all_configured in Hall. rewrite Forall_forall in Hall.
  specialize (Hall _ (proj2 (list_elem_of_In _ _) Hin)). simpl in Hall.
  destruct entries; [congruence | discriminate].
Qed.







End Widgets.



(** ** The formatted selection after events *)

Section SelectionPresent.

Variable configs : list (string * list (string * string)).
Variable key_map : gmap string string.

Hypothesis names_nonempty : forall name, In name (map fst configs) -> name <> "".

(** A listed model of a selected platform is formatted with a key that
    the platform's list pairs with it. *)
Lemma get_model_params_listed (self : ModelSelectUtil) (platform model : string) :
  selected_platform self = Some platform ->
  selected_model self = Some model ->
  platform <> "" -> model <> "" ->
  In model (model_options configs platform) ->
  exists platform_key,
    In (model, platform_key) (default [] (dict_get configs platform)) /\
    get_model_params configs self = Some (platform_key +:+ ":" +:+ model).
Proof.
  intros Hp Hm Hpne Hmne Hin.
  rewrite (get_model_params_set configs self platform model) by assumption.
  destruct (find_model_params (default [] (dict_get configs platform)) model)
    as [s|] eqn:Hfind.
  - apply find_model_params_Some in Hfind as (key & Hkey & ->).
    exists key. auto.
  - apply find_model_params_None in Hfind. contradiction.
Qed.

End SelectionPresent.

Lemma model_configs_model_names platform model :
  In model (model_options model_configs platform) -> model <> "".
Proof.
  unfold model_options.
  destruct (dict_get model_configs platform) as [entries|] eqn:Hget;
    [|intros []].
  apply dict_get_In in Hget. simpl in Hget |- *. intros Hin.
  repeat match goal with
         | H : _ \/ _ |- _ => destruct H as [H|H]
         | H : False |- _ => destruct H
         | H : (_, _) = (_, _) |- _ => injection H as <- <-
         end;
    simpl in Hin;
    repeat match goal with
           | H : _ \/ _ |- _ => destruct H as [H|H]
           | H : False |- _ => destruct H
           end;
    subst; discriminate.
Qed.

(** ** [display_widgets] *)

Lemma select_model_widget_platform_output
    (configs : list (string * list (string * string))) (self : ModelSelectUtil) :
  platform_output (select_model_widget configs self) = platform_output self.
Proof.
  unfold select_model_widget.
  destruct (selected_platform self) as [platform|]; [|reflexivity].
  destruct (negb (truthy platform)); [reflexivity|].
  destruct (model_options configs platform); reflexivity.
Qed.

(** ** Calling a method again *)

Section Repeated.

Variable configs : list (string * list (string * string)).
Variable key_map : gmap string string.

Lemma select_model_widget_twice (self : ModelSelectUtil) :
  select_model_widget configs (select_model_widget configs self) =
  select_model_widget configs self.
Proof.
  unfold select_model_widget.
  destruct (selected_platform self) as [platform|] eqn:Hsel.
  - destruct (negb (truthy platform)) eqn:Ht.
    + cbv beta iota. rewrite Hsel, Ht. reflexivity.
    + destruct (model_options configs platform) as [|first others] eqn:Hopts;
        simpl; rewrite ?Hsel, Ht, Hopts; reflexivity.
  - cbv beta iota. rewrite Hsel. reflexivity.
Qed.

(** An instance on which [select_platform_widget] changes nothing stays
    so when only its model side is changed. *)
Lemma select_platform_widget_fixed environ (a b : ModelSelectUtil) :
  select_platform_widget configs key_map environ a = Ok a ->
  platform_dropdown b = platform_dropdown a ->
  selected_platform b = selected_platform a ->
  platform_output b = platform_output a ->
  select_platform_widget configs key_map environ b = Ok b.
Proof.
  unfold select_platform_widget.
  destruct (available_platforms configs key_map environ) as [[|first others]|e];
    [| |discriminate];
    destruct a, b; simpl; intros Ha Hpd Hsp Hpo;
    injection Ha; intros; subst; reflexivity.
Qed.

Lemma select_platform_widget_twice environ (self self' : ModelSelectUtil) :
  select_platform_widget configs key_map environ self = Ok self' ->
  select_platform_widget configs key_map environ self' = Ok self'.
Proof.
  unfold select_platform_widget.
  destruct (available_platforms configs key_map environ) as [[|first others]|e];
    [| |discriminate]; intros [= <-]; reflexivity.
Qed.

End Repeated.

(** Extra X12.  [select_platform_widget] never touches the model side of
    the instance ([selected_model], [model_dropdown], [model_output]),
    and [select_model_widget] never touches its platform side
    ([selected_platform], [platform_dropdown], [platform_output]). *)
Theorem methods_keep_other_side
    (configs : list (string * list (string * string)))
    (key_map environ : gmap string string) (self : ModelSelectUtil) :
  (forall self',
      select_platform_widget configs key_map environ self = Ok self' ->
      selected_model self' = selected_model self /\
      model_dropdown self' = model_dropdown self /\
      model_output self' = model_output self) /\
  (selected_platform (select_model_widget configs self) = selected_platform self /\
   platform_dropdown (select_model_widget configs self) = platform_dropdown self /\
   platform_output (select_model_widget configs self) = platform_output self).
Proof.
  split.
  - intros self'. unfold select_platform_widget.
    destruct (available_platforms configs key_map environ) as [[|first others]|e];
      [| |discriminate]; intros [= <-]; simpl; auto.
  - destruct (select_model_widget_platform_side configs self) as [Hd Hp].
    split; [exact Hp|]. split; [exact Hd|].
    apply select_model_widget_platform_output.
Qed.

Lemma methods_keep_other_side_witness :
  selected_model reselect_state = selected_model moved_state /\
  model_dropdown reselect_state = model_dropdown moved_state /\
  model_output reselect_state = model_output moved_state.
Proof.
  apply (proj1 (methods_keep_other_side model_configs api_key_map
                  two_keys_environ moved_state)).
  exact moved_state_reselect.
Defined.

(** ** Duplicates *)

Lemma filter_names_NoDup (f : string * list (string * string) -> bool)
    (items : list (string * list (string * string))) :
  NoDup (map fst items) -> NoDup (map fst (List.filter f items)).
Proof.
  induction items as [|item items IH]; simpl; intros Hnd.
  - constructor.
  - apply NoDup_cons in Hnd as [Hnotin Hnd].
    destruct (f item); simpl; [|apply IH, Hnd].
    apply NoDup_cons. split; [|apply IH, Hnd].
    intros Hin. apply Hnotin.
    apply list_elem_of_In. apply list_elem_of_In in Hin.
    apply in_map_iff in Hin as (x & Hx & Hin).
    apply filter_In in Hin as [Hin _].
    rewrite <- Hx. apply in_map, Hin.
Qed.

(** Extra X13.  When the provider names of the table are pairwise
    distinct, as the keys of a dict are, no provider occurs twice in the
    list of available providers, so the platform drop-down never offers
    an option twice. *)
Theorem available_platforms_NoDup
    (configs : list (string * list (string * string)))
    (key_map environ : gmap string string) (available : list string) :
  NoDup (map fst configs) ->
  available_platforms configs key_map environ = Ok available ->
  NoDup available.
Proof.
  intros Hnd Hl.
  pose proof (available_loop_configured _ _ _ _ _ Hl) as Hall.
  unfold available_platforms in Hl.
  rewrite (available_loop_filter key_map environ configs [] Hall) in Hl.
  injection Hl as <-. simpl. apply filter_names_NoDup, Hnd.
Qed.

Lemma available_platforms_NoDup_witness :
  NoDup ["OpenAI"; "Deepseek"].
Proof.
  apply (available_platforms_NoDup model_configs api_key_map two_keys_environ).
  - apply (bool_decide_unpack _). vm_compute. reflexivity.
  - reflexivity.
Defined.

(** Extra X14.  When a model name is listed more than once for the
    selected platform, [get_model_params] pairs it with the key of its
    first entry: for a list [before ++ (model, key) :: after] in which no
    entry of [before] names the model, the result is ["key:model"]. *)
Theorem get_model_params_first_entry
    (configs : list (string * list (string * string))) (self : ModelSelectUtil)
    (platform model platform_key : string)
    (before after : list (string * string)) :
  selected_platform self = Some platform ->
  selected_model self = Some model ->
  platform <> "" -> model <> "" ->
  dict_get configs platform = Some (before ++ (model, platform_key) :: after)%list ->
  ~ In model (map fst before) ->
  get_model_params configs self = Some (platform_key +:+ ":" +:+ model).
Proof.
  intros Hp Hm Hpne Hmne Hget Hfirst.
  rewrite (get_model_params_set configs self platform model) by assumption.
  rewrite Hget. simpl. clear Hget.
  induction before as [|[name key] before IH]; simpl.
  - rewrite String.eqb_refl. reflexivity.
  - simpl in Hfirst.
    destruct (String.eqb_spec name model) as [->|Hne].
    + exfalso. apply Hfirst. auto.
    + apply IH. intros Hin. apply Hfirst. auto.
Qed.

Lemma get_model_params_first_entry_witness :
  get_model_params
    [ ("Hub", [ ("small", "openai"); ("large", "gemini"); ("large", "openai") ]) ]
    {| platform_dropdown := None; model_dropdown := None;
       selected_platform := Some "Hub"; selected_model := Some "large";
       platform_output := []; model_output := [] |}
  = Some "gemini:large".
Proof.
  apply (get_model_params_first_entry _ _ "Hub" "large" "gemini"
           [("small", "openai")] [("large", "openai")]);
    try reflexivity; try discriminate.
  simpl. intros [H|[]]. discriminate H.
Defined.

(** ** Every drop-down the instance has built *)

Section Built.

Variable configs : list (string * list (string * string)).
Variable key_map : gmap string string.

Lemma In_retire_if (b : bool) (old : option Dropdown) (l : list Dropdown) (d : Dropdown) :
  In d (if b then retire old l else l) -> old = Some d \/ In d l.
Proof.
  destruct b; [|auto]. destruct old as [o|]; simpl; [|auto].
  intros [->|H]; auto.
Qed.

Lemma set_value_platform_ok (d : Dropdown) (new : string) :
  platform_dropdown_ok configs d -> In new (options d) ->
  platform_dropdown_ok configs (set_value d new).
Proof.
  intros [_ Hopts] Hnew. split; [exact Hnew | exact Hopts].
Qed.

Lemma set_value_model_ok (d : Dropdown) (new : string) :
  model_dropdown_ok configs d -> In new (options d) ->
  model_dropdown_ok configs (set_value d new).
Proof.
  intros [_ Hopts] Hnew. split; [exact Hnew | exact Hopts].
Qed.

Lemma held_ok_select_model_widget (self : ModelSelectUtil) :
  held_ok configs self -> held_ok configs (select_model_widget configs self).
Proof.
  intros Hok. pose proof Hok as (Hpd & Hsp & Hmd & Hsm).
  unfold select_model_widget.
  destruct (selected_platform self) as [platform|] eqn:Hsel; [|exact Hok].
  destruct (negb (truthy platform)); [exact Hok|].
  destruct (Hsp platform eq_refl) as [Hname Hmodels].
  destruct (model_options configs platform) as [|first others] eqn:Hlist;
    [congruence|].
  split; [exact Hpd|]. split; [exact Hsp|]. split; simpl.
  - intros d [= <-]. split; simpl; [auto|].
    exists platform. split; [exact Hname | symmetry; exact Hlist].
  - intros model [= <-]. exists platform. split; [exact Hname|].
    rewrite Hlist. left. reflexivity.
Qed.

Lemma held_ok_select_platform_widget environ (self self' : ModelSelectUtil) :
  held_ok configs self ->
  select_platform_widget configs key_map environ self = Ok self' ->
  held_ok configs self'.
Proof.
  intros (Hpd & Hsp & Hmd & Hsm). unfold select_platform_widget.
  destruct (available_platforms configs key_map environ) as [available|e] eqn:Hl;
    [|discriminate].
  pose proof (available_platforms_models configs key_map _ _ Hl) as Hmodels.
  destruct available as [|first others]; intros [= <-].
  - split; [exact Hpd|]. split; [exact Hsp|]. split; [exact Hmd | exact Hsm].
  - split; [|split; [|split; [exact Hmd | exact Hsm]]]; simpl.
    + intros d [= <-]. split; simpl; [auto | exact Hmodels].
    + intros platform [= <-]. apply Hmodels. left. reflexivity.
Qed.

(** The state the platform observer hands to [select_model_widget]. *)
Lemma held_ok_platform_assigned (self : ModelSelectUtil)
    (dropdown : option Dropdown) (new : string) :
  held_ok configs self ->
  (forall d, dropdown = Some d -> platform_dropdown_ok configs d) ->
  In new (map fst configs) /\ model_options configs new <> [] ->
  held_ok configs
    (on_platform_change configs (value_change new)
       {| platform_dropdown := dropdown;
          model_dropdown := model_dropdown self;
          selected_platform := selected_platform self;
          selected_model := selected_model self;
          platform_output := platform_output self;
          model_output := model_output self |}).
Proof.
  intros (Hpd & Hsp & Hmd & Hsm) Hdrop Hnew.
  apply held_ok_select_model_widget.
  split; [exact Hdrop|]. split; [|split; [exact Hmd | exact Hsm]].
  simpl. intros platform [= <-]. exact Hnew.
Qed.

Lemma step_held_ok (ev : event) (self self' : ModelSelectUtil) :
  held_ok configs self ->
  step configs key_map ev self = Some self' ->
  held_ok configs self'.
Proof.
  intros Hok Hstep. destruct ev as [environ| |environ|new|new]; simpl in Hstep.
  - destruct (select_platform_widget configs key_map environ self) as [s|e] eqn:Hs;
      [|discriminate].
    injection Hstep as <-. eapply held_ok_select_platform_widget; eassumption.
  - injection Hstep as <-. apply held_ok_select_model_widget, Hok.
  - unfold display_widgets in Hstep.
    destruct (select_platform_widget configs key_map environ self) as [s|e] eqn:Hs;
      [|discriminate].
    injection Hstep as <-. apply held_ok_select_model_widget.
    eapply held_ok_select_platform_widget; eassumption.
  - destruct (platform_dropdown self) as [d|] eqn:Hd; [|discriminate].
    destruct (changes_value d new) eqn:Hopt; [|discriminate].
    injection Hstep as <-. apply changes_value_In in Hopt.
    pose proof (proj1 Hok d Hd) as Hdok.
    apply held_ok_platform_assigned; [exact Hok | | apply (proj2 Hdok new Hopt)].
    intros d' [= <-]. apply set_value_platform_ok; assumption.
  - destruct (model_dropdown self) as [d|] eqn:Hd; [|discriminate].
    destruct (changes_value d new) eqn:Hopt; [|discriminate].
    injection Hstep as <-. apply changes_value_In in Hopt.
    destruct Hok as (Hpd & Hsp & Hmd & Hsm).
    pose proof (Hmd d Hd) as Hdok.
    split; [exact Hpd|]. split; [exact Hsp|]. split; simpl.
    + intros d' [= <-]. apply set_value_model_ok; assumption.
    + intros model [= <-]. destruct Hdok as (_ & platform & Hname & Hopts).
      exists platform. split; [exact Hname|]. rewrite <- Hopts. exact Hopt.
Qed.

Lemma notebook_step_built (nev : notebook_event) (w w' : Notebook) :
  built_ok configs w ->
  notebook_step configs key_map nev w = Some w' ->
  built_ok configs w'.
Proof.
  intros (Hheld & Hrp & Hrm) Hstep.
  destruct nev as [ev|i new|i new]; simpl in Hstep.
  - destruct (step configs key_map ev (instance w)) as [self'|] eqn:Hs;
      [|discriminate].
    injection Hstep as <-.
    split; [exact (step_held_ok ev _ _ Hheld Hs)|]. split; simpl.
    + intros d Hd. apply In_retire_if in Hd as [Hd|Hd];
        [apply (proj1 Hheld d Hd) | apply (Hrp d Hd)].
    + intros d Hd. apply In_retire_if in Hd as [Hd|Hd];
        [apply (proj1 (proj2 (proj2 Hheld)) d Hd) | apply (Hrm d Hd)].
  - destruct (replaced_platform_dropdowns w !! i) as [d|] eqn:Hd; [|discriminate].
    destruct (changes_value d new) eqn:Hopt; [|discriminate].
    injection Hstep as <-.
    apply lookup_In in Hd. apply changes_value_In in Hopt.
    pose proof (Hrp d Hd) as Hdok.
    split; [|split]; simpl.
    + destruct (instance w) as [pd md sp sm po mo] eqn:Hinst.
      apply (held_ok_platform_assigned
               {| platform_dropdown := pd; model_dropdown := md;
                  selected_platform := sp; selected_model := sm;
                  platform_output := po; model_output := mo |} pd new Hheld).
      * apply Hheld.
      * apply (proj2 Hdok new Hopt).
    + intros d' Hd'. apply In_list_insert in Hd' as [->|Hd'];
        [apply set_value_platform_ok; assumption | apply (Hrp d' Hd')].
    + intros d' Hd'. apply In_retire_if in Hd' as [Hd'|Hd'];
        [apply (proj1 (proj2 (proj2 Hheld)) d' Hd') | apply (Hrm d' Hd')].
  - destruct (replaced_model_dropdowns w !! i) as [d|] eqn:Hd; [|discriminate].
    destruct (changes_value d new) eqn:Hopt; [|discriminate].
    injection Hstep as <-.
    apply lookup_In in Hd. apply changes_value_In in Hopt.
    pose proof (Hrm d Hd) as Hdok.
    destruct Hheld as (Hpd & Hsp & Hmd & Hsm).
    split; [split; [|split; [|split]]|split]; simpl.
    + exact Hpd.
    + exact Hsp.
    + exact Hmd.
    + intros model [= <-]. destruct Hdok as (_ & platform & Hname & Hopts).
      exists platform. split; [exact Hname|]. rewrite <- Hopts. exact Hopt.
    + exact Hrp.
    + intros d' Hd'. apply In_list_insert in Hd' as [->|Hd'];
        [apply set_value_model_ok; assumption | apply (Hrm d' Hd')].
Qed.

Lemma notebook_run_built (nevs : list notebook_event) :
  forall w w' : Notebook,
    built_ok configs w ->
    notebook_run configs key_map nevs w = Some w' ->
    built_ok configs w'.
Proof.
  induction nevs as [|nev nevs IH]; intros w w' Hok Hrun; simpl in Hrun.
  - injection Hrun as <-. exact Hok.
  - destruct (notebook_step configs key_map nev w) as [mid|] eqn:Hstep;
      [|discriminate].
    exact (IH _ _ (notebook_step_built _ _ _ Hok Hstep) Hrun).
Qed.

Lemma fresh_notebook_built : built_ok configs fresh_notebook.
Proof.
  split; [|split]; simpl; [|intros d []..].
  split; [|split; [|split]]; simpl; discriminate.
Qed.

End Built.

(** Extra X5.  After any notebook events (method calls and value changes
    on held or replaced drop-downs) from a fresh instance,
    [get_selected_platform], when set, is a provider name of the table
    that has at least one model; every platform drop-down the instance
    has built, held or replaced, has one of its options as value and
    offers provider names of the table only. *)
Theorem selected_platform_is_provider
    (configs : list (string * list (string * string)))
    (key_map : gmap string string)
    (nevs : list notebook_event) (w : Notebook) :
  notebook_run configs key_map nevs fresh_notebook = Some w ->
  (forall platform,
      get_selected_platform (instance w) = Some platform ->
      In platform (map fst configs) /\ model_options configs platform <> []) /\
  (forall d,
      platform_dropdown (instance w) = Some d \/
      In d (replaced_platform_dropdowns w) ->
      In (value d) (options d) /\
      forall x, In x (options d) -> In x (map fst configs)).
Proof.
  intros Hrun.
  destruct (notebook_run_built configs key_map nevs _ _
              (fresh_notebook_built configs) Hrun)
    as ((Hpd & Hsp & _) & Hrp & _).
  split; [exact Hsp|].
  intros d [Hd|Hd]; [destruct (Hpd d Hd) as [Hv Ho] | destruct (Hrp d Hd) as [Hv Ho]];
    (split; [exact Hv | intros x Hx; apply (Ho x Hx)]).
Qed.

Lemma selected_platform_is_provider_witness :
  In "Deepseek" (map fst model_configs) /\
  model_options model_configs "Deepseek" <> [].
Proof.
  exact (proj1 (selected_platform_is_provider model_configs api_key_map
                  [ OnHeld (SelectPlatformWidget two_keys_environ);
                    OnHeld (SelectPlatformWidget two_keys_environ);
                    OnReplacedPlatform 0 "Deepseek" ]
                  {| instance :=
                       {| platform_dropdown :=
                            Some {| options := ["OpenAI"; "Deepseek"];
                                    value := "OpenAI";
                                    description := "Platform:";
                                    disabled := false |};
                          model_dropdown :=
                            Some {| options := ["deepseek-chat"; "deepseek-coder"];
                                    value := "deepseek-chat";
                                    description := "Model:";
                                    disabled := false |};
                          selected_platform := Some "Deepseek";
                          selected_model := Some "deepseek-chat";
                          platform_output := [Displayed PlatformDropdown];
                          model_output := [Displayed ModelDropdown] |};
                     replaced_platform_dropdowns :=
                       [ {| options := ["OpenAI"; "Deepseek"];
                            value := "Deepseek";
                            description := "Platform:";
                            disabled := false |} ];
                     replaced_model_dropdowns := [] |}
                  eq_refl) "Deepseek" eq_refl).
Defined.

(** Extra X6.  After any notebook events from a fresh instance,
    [get_selected_model], when set, is a model name listed for some
    provider of the table (not necessarily the selected one); every
    model drop-down the instance has built, held or replaced, has one of
    its options as value and offers exactly the model names of one
    provider. *)
Theorem selected_model_is_listed
    (configs : list (string * list (string * string)))
    (key_map : gmap string string)
    (nevs : list notebook_event) (w : Notebook) :
  notebook_run configs key_map nevs fresh_notebook = Some w ->
  (forall model,
      get_selected_model (instance w) = Some model ->
      exists platform,
        In platform (map fst configs) /\
        In model (model_options configs platform)) /\
  (forall d,
      model_dropdown (instance w) = Some d \/
      In d (replaced_model_dropdowns w) ->
      In (value d) (options d) /\
      exists platform,
        In platform (map fst configs) /\
        options d = model_options configs platform).
Proof.
  intros Hrun.
  destruct (notebook_run_built configs key_map nevs _ _
              (fresh_notebook_built configs) Hrun)
    as ((_ & _ & Hmd & Hsm) & _ & Hrm).
  split; [exact Hsm|].
  intros d [Hd|Hd]; [apply (Hmd d Hd) | apply (Hrm d Hd)].
Qed.

Lemma selected_model_is_listed_witness :
  exists platform,
    In platform (map fst model_configs) /\
    In "gpt-5-nano" (model_options model_configs platform).
Proof.
  apply (proj1 (selected_model_is_listed model_configs api_key_map
                  replaced_model_trace
                  {| instance :=
                       {| platform_dropdown := platform_dropdown moved_state;
                          model_dropdown := model_dropdown moved_state;
                          selected_platform := Some "Deepseek";
                          selected_model := Some "gpt-5-nano";
                          platform_output := [Displayed PlatformDropdown];
                          model_output := [Displayed ModelDropdown] |};
                     replaced_platform_dropdowns := [];
                     replaced_model_dropdowns :=
                       [ {| options := ["gpt-4o"; "gpt-3.5-turbo"; "gpt-5-nano"];
                            value := "gpt-5-nano";
                            description := "Model:";
                            disabled := false |} ] |}
                  eq_refl)).
  reflexivity.
Defined.

(** ** The formatted selection after notebook events *)

(** Extra X8.  On the tables of the source, after any notebook events
    (method calls and value changes on held or replaced drop-downs) in
    which the most recent bare [select_platform_widget] call or model
    change on a replaced drop-down, if there is one, has been followed
    by a repopulation: as soon as a platform is selected, a model from
    its list is selected too and [get_model_params] returns
    ["<provider_key>:<model_name>"] for that model, with a key that the
    platform's list pairs with it, never [None]. *)
Theorem get_model_params_after_events
    (nevs : list notebook_event) (w : Notebook) (platform : string) :
  notebook_run model_configs api_key_map nevs fresh_notebook = Some w ->
  repopulated nevs = true ->
  selected_platform (instance w) = Some platform ->
  exists model platform_key,
    selected_model (instance w) = Some model /\
    In (model, platform_key) (default [] (dict_get model_configs platform)) /\
    get_model_params model_configs (instance w)
      = Some (platform_key +:+ ":" +:+ model).
Proof.
  intros Hrun Hsync Hsel.
  destruct (repopulated_selection model_configs api_key_map model_configs_names
              nevs w Hrun Hsync) as [_ Hselection].
  destruct (Hselection platform Hsel) as (Hpne & model & Hm & Hin).
  destruct (get_model_params_listed model_configs (instance w) platform model
              Hsel Hm Hpne (model_configs_model_names _ _ Hin) Hin)
    as (key & Hkey & Hparams).
  exists model, key. auto.
Qed.

Lemma get_model_params_after_events_witness :
  exists w model platform_key,
    notebook_run model_configs api_key_map
      (replaced_model_trace ++ [OnHeld SelectModelWidget]) fresh_notebook
      = Some w /\
    selected_model (instance w) = Some model /\
    In (model, platform_key) (default [] (dict_get model_configs "Deepseek")) /\
    get_model_params model_configs (instance w)
      = Some (platform_key +:+ ":" +:+ model).
Proof.
  eexists. 
  assert (Hrun : notebook_run model_configs api_key_map
                   (replaced_model_trace ++ [OnHeld SelectModelWidget])
                   fresh_notebook = Some _) by (vm_compute; reflexivity).
  destruct (get_model_params_after_events _ _ "Deepseek" Hrun eq_refl eq_refl)
    as (model & key & Hm & Hin & Hparams).
  exists model, key. split; [exact Hrun|]. auto.
Defined.

(** ** [display_widgets] and the formatted selection *)

Lemma select_model_widget_then_params (self : ModelSelectUtil) (platform : string) :
  selected_platform self = Some platform ->
  In platform (map fst model_configs) ->
  exists model platform_key others,
    dict_get model_configs platform = Some ((model, platform_key) :: others) /\
    selected_platform (select_model_widget model_configs self) = Some platform /\
    selected_model (select_model_widget model_configs self) = Some model /\
    get_model_params model_configs (select_model_widget model_configs self)
      = Some (platform_key +:+ ":" +:+ model).
Proof.
  intros Hsel Hin. simpl in Hin.
  destruct Hin as [<-|[<-|[<-|[<-|[]]]]];
    (eexists _, _, _; split; [reflexivity|]);
    unfold select_model_widget, get_model_params; rewrite Hsel; cbn;
    auto.
Qed.

(** Extra X9.  On the tables of the source, when at least one provider
    has a usable key, [display_widgets] returns from any instance with
    the first available provider selected, the first model of that
    provider's list selected, and [get_model_params] returning
    ["<key>:<model>"] for the key and the model of the first tuple of
    that list, whatever was selected before. *)
Theorem display_widgets_default_selection
    (environ : gmap string string) (self : ModelSelectUtil)
    (first : string) (others : list string) :
  available_platforms model_configs api_key_map environ = Ok (first :: others) ->
  exists self' model platform_key rest,
    display_widgets model_configs api_key_map environ self = Ok self' /\
    dict_get model_configs first = Some ((model, platform_key) :: rest) /\
    get_selected_platform self' = Some first /\
    get_selected_model self' = Some model /\
    get_model_params model_configs self' = Some (platform_key +:+ ":" +:+ model).
Proof.
  intros Hl.
  pose proof (available_platforms_names environ _ first Hl (or_introl eq_refl))
    as Hname.
  unfold display_widgets, select_platform_widget. rewrite Hl.
  match goal with
  | |- context [select_model_widget _ ?mid] =>
      destruct (select_model_widget_then_params mid first eq_refl Hname)
        as (model & key & rest & Hget & Hp & Hm & Hparams)
  end.
  eexists _, model, key, rest. split; [reflexivity|].
  unfold get_selected_platform, get_selected_model. auto.
Qed.

Lemma display_widgets_default_selection_witness :
  exists self' model platform_key rest,
    display_widgets model_configs api_key_map
      (<["GEMINI_API_KEY" := "g-1"]> ∅) reselect_state = Ok self' /\
    dict_get model_configs "Gemini" = Some ((model, platform_key) :: rest) /\
    get_selected_platform self' = Some "Gemini" /\
    get_selected_model self' = Some model /\
    get_model_params model_configs self' = Some (platform_key +:+ ":" +:+ model).
Proof.
  apply (display_widgets_default_selection
           (<["GEMINI_API_KEY" := "g-1"]> ∅) reselect_state "Gemini" []).
  reflexivity.
Defined.

(** Extra X10.  On the tables of the source, when no provider has a
    usable key, [display_widgets] on an instance whose selected platform
    is a provider of the table prints the no-keys message and still
    keeps that platform, selects the first model of its list, and
    [get_model_params] returns ["<key>:<model>"] for the key and the
    model of the first tuple of that list. *)
Theorem display_widgets_without_keys_keeps_platform
    (environ : gmap string string) (self : ModelSelectUtil) (platform : string) :
  selected_platform self = Some platform ->
  In platform (map fst model_configs) ->
  available_platforms model_configs api_key_map environ = Ok [] ->
  exists self' model platform_key rest,
    display_widgets model_configs api_key_map environ self = Ok self' /\
    platform_output self' = [Printed no_api_keys_message] /\
    dict_get model_configs platform = Some ((model, platform_key) :: rest) /\
    get_selected_platform self' = Some platform /\
    get_selected_model self' = Some model /\
    get_model_params model_configs self' = Some (platform_key +:+ ":" +:+ model).
Proof.
  intros Hsel Hname Hl.
  unfold display_widgets, select_platform_widget. rewrite Hl.
  match goal with
  | |- context [select_model_widget _ ?mid] =>
      destruct (select_model_widget_then_params mid platform Hsel Hname)
        as (model & key & rest & Hget & Hp & Hm & Hparams);
      pose proof (select_model_widget_platform_output model_configs mid) as Hout
  end.
  eexists _, model, key, rest. split; [reflexivity|].
  unfold get_selected_platform, get_selected_model.
  split; [exact Hout|]. auto.
Qed.

Lemma display_widgets_without_keys_keeps_platform_witness :
  exists self' model platform_key rest,
    display_widgets model_configs api_key_map ∅ moved_state = Ok self' /\
    platform_output self' = [Printed no_api_keys_message] /\
    dict_get model_configs "Deepseek" = Some ((model, platform_key) :: rest) /\
    get_selected_platform self' = Some "Deepseek" /\
    get_selected_model self' = Some model /\
    get_model_params model_configs self' = Some (platform_key +:+ ":" +:+ model).
Proof.
  apply (display_widgets_without_keys_keeps_platform ∅ moved_state "Deepseek").
  - reflexivity.
  - simpl. auto.
  - reflexivity.
Defined.

(** ** Calling a method a second time *)

Section RepeatedCall.

Variable configs : list (string * list (string * string)).
Variable key_map : gmap string string.

Lemma display_widgets_twice environ (self self' : ModelSelectUtil) :
  display_widgets configs key_map environ self = Ok self' ->
  display_widgets configs key_map environ self' = Ok self'.
Proof.
  unfold display_widgets.
  destruct (select_platform_widget configs key_map environ self) as [mid|e] eqn:Hs;
    [|discriminate].
  intros [= <-].
  rewrite (select_platform_widget_fixed configs key_map environ mid
             (select_model_widget configs mid)
             (select_platform_widget_twice _ _ _ _ _ Hs)
             (proj1 (select_model_widget_platform_side configs mid))
             (proj2 (select_model_widget_platform_side configs mid))
             (select_model_widget_platform_output configs mid)).
  rewrite select_model_widget_twice. reflexivity.
Qed.

Lemma step_method_twice (ev : event) (self self' : ModelSelectUtil) :
  method_call ev = true ->
  step configs key_map ev self = Some self' ->
  step configs key_map ev self' = Some self'.
Proof.
  destruct ev as [environ| |environ|new|new]; try discriminate; intros _; simpl.
  - destruct (select_platform_widget configs key_map environ self) as [s|e] eqn:Hs;
      [|discriminate].
    intros [= <-]. rewrite (select_platform_widget_twice _ _ _ _ _ Hs). reflexivity.
  - intros [= <-]. rewrite select_model_widget_twice. reflexivity.
  - destruct (display_widgets configs key_map environ self) as [s|e] eqn:Hs;
      [|discriminate].
    intros [= <-]. rewrite (display_widgets_twice _ _ _ Hs). reflexivity.
Qed.

End RepeatedCall.

(** Extra X11.  A second call of [select_model_widget], or of
    [select_platform_widget] or [display_widgets] in the same
    environment, returns and leaves every attribute of the instance with
    the same contents as after the first call: the selections, the
    output areas and the options and values of the held drop-downs are
    equal.  The drop-downs themselves are rebuilt: a drop-down that the
    second call replaces is from then on among the replaced ones, which
    keep their observers. *)
Theorem repeated_call_rebuilds_dropdowns
    (configs : list (string * list (string * string)))
    (key_map : gmap string string)
    (ev : event) (w w1 : Notebook) :
  method_call ev = true ->
  notebook_step configs key_map (OnHeld ev) w = Some w1 ->
  exists w2,
    notebook_step configs key_map (OnHeld ev) w1 = Some w2 /\
    instance w2 = instance w1 /\
    (forall d, rebuilds_platform configs key_map ev = true ->
               platform_dropdown (instance w1) = Some d ->
               In d (replaced_platform_dropdowns w2)) /\
    (forall d, rebuilds_model configs key_map ev (instance w1) = true ->
               model_dropdown (instance w1) = Some d ->
               In d (replaced_model_dropdowns w2)).
Proof.
  intros Hcall Hstep. simpl in Hstep |- *.
  destruct (step configs key_map ev (instance w)) as [self1|] eqn:Hs;
    [|discriminate].
  injection Hstep as <-. simpl.
  rewrite (step_method_twice configs key_map ev _ _ Hcall Hs).
  eexists. split; [reflexivity|]. simpl. split; [reflexivity|]. split.
  - intros d -> ->. left. reflexivity.
  - intros d -> ->. left. reflexivity.
Qed.

Lemma repeated_call_rebuilds_dropdowns_witness :
  exists w2,
    notebook_step model_configs api_key_map
      (OnHeld (DisplayWidgets two_keys_environ))
      {| instance := select_model_widget model_configs reselect_state;
         replaced_platform_dropdowns := retire (platform_dropdown moved_state) [];
         replaced_model_dropdowns := retire (model_dropdown moved_state) [] |}
      = Some w2 /\
    instance w2 = select_model_widget model_configs reselect_state /\
    length (replaced_platform_dropdowns w2) = 2 /\
    length (replaced_model_dropdowns w2) = 2.
Proof.
  destruct (repeated_call_rebuilds_dropdowns model_configs api_key_map
              (DisplayWidgets two_keys_environ)
              {| instance := moved_state;
                 replaced_platform_dropdowns := [];
                 replaced_model_dropdowns := [] |}
              {| instance := select_model_widget model_configs reselect_state;
                 replaced_platform_dropdowns := retire (platform_dropdown moved_state) [];
                 replaced_model_dropdowns := retire (model_dropdown moved_state) [] |}
              eq_refl eq_refl)
    as (w2 & Hstep & Hinst & _).
  exists w2. split; [exact Hstep|]. split; [exact Hinst|].
  vm_compute in Hstep. injection Hstep as <-. split; reflexivity.
Defined.
